(** * openvpnmsica: deferred operation sequences of the MSI custom actions

    A shallow embedding of [src/openvpnmsica/openvpnmsica.c]: the planning
    action [EvaluateTAPInterfaces], the deferred action
    [ProcessDeferredAction] and the file-name derivation they share.

    The Windows Installer session, the file system and the TAP driver are
    outside the C file.  They are modelled as a read-only [host] (what every
    external call answers) and a [world] that is threaded through the code
    (files, installer properties, progress, the trace of executed
    operations).  Closing a handle and freeing memory are left out: they
    change nothing a later call of these functions can observe. *)

From stdpp Require Import base strings gmap list.
From Stdlib Require Import ZArith Ascii String Lia.

Open Scope Z_scope.

(** ** Integer types and Windows constants *)

Abbreviation DWORD := Z (only parsing).
Abbreviation UINT := Z (only parsing).

Definition ERROR_SUCCESS : DWORD := 0.
Definition ERROR_FILE_NOT_FOUND : DWORD := 2.
Definition ERROR_INVALID_HANDLE : DWORD := 6.
Definition ERROR_GEN_FAILURE : DWORD := 31.
Definition ERROR_BAD_ARGUMENTS : DWORD := 160.
Definition ERROR_NO_MORE_ITEMS : DWORD := 259.
Definition ERROR_INSTALL_USEREXIT : DWORD := 1602.
Definition ERROR_INSTALL_FAILURE : DWORD := 1603.
Definition ERROR_INVALID_FIELD : DWORD := 1616.

Definition IDCANCEL : Z := 2.

(** [INSTALLSTATE] of msi.h, as the integers the C code compares. *)
Abbreviation INSTALLSTATE := Z (only parsing).
Definition INSTALLSTATE_UNKNOWN : INSTALLSTATE := -1.
Definition INSTALLSTATE_BROKEN : INSTALLSTATE := 0.
Definition INSTALLSTATE_ADVERTISED : INSTALLSTATE := 1.
Definition INSTALLSTATE_REMOVED : INSTALLSTATE := 1.
Definition INSTALLSTATE_ABSENT : INSTALLSTATE := 2.
Definition INSTALLSTATE_LOCAL : INSTALLSTATE := 3.
Definition INSTALLSTATE_SOURCE : INSTALLSTATE := 4.
Definition INSTALLSTATE_DEFAULT : INSTALLSTATE := 5.

(** [MSICONDITION] of msiquery.h. *)
Inductive MSICONDITION :=
| MSICONDITION_FALSE
| MSICONDITION_TRUE
| MSICONDITION_NONE
| MSICONDITION_ERROR.

Inductive MSIRUNMODE :=
| MSIRUNMODE_COMMIT
| MSIRUNMODE_ROLLBACK.

(** [#define MSICA_INTERFACE_TICK_SIZE (16*1024)] *)
Definition MSICA_INTERFACE_TICK_SIZE : Z := 16 * 1024.

(** ** Strings *)

(** The first [n] characters of [s]: what [printf]'s ["%.*s"] prints. *)
Fixpoint string_take (n : nat) (s : string) : string :=
  match n, s with
  | O, _ => EmptyString
  | S _, EmptyString => EmptyString
  | S n', String c s' => String c (string_take n' s')
  end.

(** [s + n] for a C string: the tail after [n] characters. *)
Fixpoint string_drop (n : nat) (s : string) : string :=
  match n, s with
  | O, _ => s
  | S _, EmptyString => EmptyString
  | S n', String _ s' => string_drop n' s'
  end.

(** [PathFindExtension] of shlwapi, as the offset of the result in the
    path: the last ['.'] that no backslash or space follows, or the
    terminating zero when there is none. *)
Fixpoint PathFindExtension_scan (s : string) (pos : nat) (lastpoint : option nat) : nat :=
  match s with
  | EmptyString => match lastpoint with Some p => p | None => pos end
  | String c s' =>
      if decide (c = "\"%char \/ c = " "%char)
      then PathFindExtension_scan s' (S pos) None
      else if decide (c = "."%char)
      then PathFindExtension_scan s' (S pos) (Some pos)
      else PathFindExtension_scan s' (S pos) lastpoint
  end.

Definition PathFindExtension (szPath : string) : nat :=
  PathFindExtension_scan szPath 0 None.

(** ** Cleanup actions *)

(** Modelled from the spec: the cleanup action indices of msica_op.h are
    not under src/.  There are two cleanup Journals, commit and rollback;
    the comments of the table below give their indices. *)
Definition MSICA_CLEANUP_ACTION_COMMIT : nat := 0.
Definition MSICA_CLEANUP_ACTION_ROLLBACK : nat := 1.
Definition MSICA_CLEANUP_ACTION_COUNT : nat := 2.

Record cleanup_action_seq := {
  szName : string;    (* appended to the deferred custom action name *)
  szSuffix : string;  (* two-character suffix of the sequence filename *)
}.

Definition openvpnmsica_cleanup_action_seqs : list cleanup_action_seq :=
  [ {| szName := "Commit";   szSuffix := "cm" |};   (* MSICA_CLEANUP_ACTION_COMMIT   *)
    {| szName := "Rollback"; szSuffix := "rb" |} ]. (* MSICA_CLEANUP_ACTION_ROLLBACK *)

Definition cleanup_action (i : nat) : cleanup_action_seq :=
  nth i openvpnmsica_cleanup_action_seqs {| szName := ""; szSuffix := "" |}.

(** [_stprintf_s(szFilenameEx, _countof(szFilenameEx), "%.*s-%.2s%s",
    len, szFilename, szSuffix, szExtension)].  The buffer holds
    [MAX_PATH + 1 + 2 + 1] characters, enough for a filename of at most
    [MAX_PATH] characters: the one [GetTempFileName] made up, or the one
    [CreateFile] has just opened.  Longer filenames are outside the model. *)
Definition stprintf_filename_ex (len : nat) (szFilename szSuffix szExtension : string) : string :=
  string_take len szFilename +:+ "-" +:+ string_take 2 szSuffix +:+ szExtension.

(** The cleanup sequence filename [openvpnmsica_setup_sequence_filename]
    stores in the property of cleanup action [i] (lines 115-129). *)
Definition setup_filename_ex (szFilename : string) (i : nat) : string :=
  let szExtension := PathFindExtension szFilename in
  stprintf_filename_ex szExtension szFilename
    (szSuffix (cleanup_action i)) (string_drop szExtension szFilename).

(** The cleanup sequence filename [ProcessDeferredAction] derives from the
    sequence filename it was given (lines 589-598, 611-616, 651-659). *)
Definition deferred_filename_ex (szSeqFilename : string) (i : nat) : string :=
  let szExtension := PathFindExtension szSeqFilename in
  stprintf_filename_ex szExtension szSeqFilename
    (szSuffix (cleanup_action i)) (string_drop szExtension szSeqFilename).

(** The derivation as the specification words it: the two-character phase
    suffix itself is inserted before the extension of the base path. *)
Definition spec_derived_filename (base suffix : string) : string :=
  string_take (PathFindExtension base) base +:+ suffix
    +:+ string_drop (PathFindExtension base) base.

(** ** Operations and operation sequences *)

(** Modelled from the spec: the operation types of msica_op.h are not
    under src/.  These are the kinds of the table of operation kinds, under
    the names the C file uses for them. *)
Inductive msica_op_type :=
| msica_op_rollback_enable
| msica_op_tap_interface_create
| msica_op_tap_interface_delete_by_name
| msica_op_file_delete.

(** Modelled from the spec: [struct msica_op] and its variants are not
    under src/.  An Operation is a kind tag, a boolean or text payload and a
    cost weight in progress ticks. *)
Inductive msica_op_value :=
| value_bool (b : bool)
| value_string (s : string).

Record msica_op := {
  op_type : msica_op_type;
  op_ticks : Z;
  op_value : msica_op_value;
}.

Global Instance msica_op_type_eq_dec : EqDecision msica_op_type.
Proof. solve_decision. Defined.
Global Instance msica_op_value_eq_dec : EqDecision msica_op_value.
Proof. solve_decision. Defined.
Global Instance msica_op_eq_dec : EqDecision msica_op.
Proof. solve_decision. Defined.

(** Modelled from the spec: [msica_op_create_bool(type, ticks, next,
    value)] of msica_op.c is not under src/.  It makes the Operation of that
    kind, cost and payload; [next] is the list link, [NULL] at every call
    site. *)
Definition msica_op_create_bool (type : msica_op_type) (ticks : Z) (value : bool) : msica_op :=
  {| op_type := type; op_ticks := ticks; op_value := value_bool value |}.

(** Modelled from the spec: [msica_op_create_string(type, ticks, next,
    value)] of msica_op.c is not under src/; as above, with a text
    payload. *)
Definition msica_op_create_string (type : msica_op_type) (ticks : Z) (value : string) : msica_op :=
  {| op_type := type; op_ticks := ticks; op_value := value_string value |}.

(** Modelled from the spec: [struct msica_op_seq] of msica_op.h is not
    under src/.  A Journal is an ordered sequence of Operations; the C
    struct keeps the head and the tail of a linked list. *)
Abbreviation msica_op_seq := (list msica_op) (only parsing).

(** Modelled from the spec: [msica_op_seq_add_tail] of msica_op.c is not
    under src/; a Journal supports append-to-tail, and insertion order is
    execution order. *)
Definition msica_op_seq_add_tail (seq : msica_op_seq) (op : msica_op) : msica_op_seq :=
  seq ++ [op].

(** ** The world outside the custom actions *)

(** What a file holds, as far as sequence files go. *)
Inductive file_data :=
| file_seq (ops : msica_op_seq)   (* a sequence as [msica_op_seq_save] wrote it; empty for an empty file *)
| file_damaged (e : DWORD).       (* anything else; [msica_op_seq_load] answers [e] *)

(** An executed operation and what its handler returned. *)
Inductive event :=
| EvOp (op : msica_op) (dwResult : DWORD).

Record world := {
  files : gmap string file_data;     (* the files that exist, by path *)
  properties : gmap string string;   (* installer properties set by [MsiSetProperty] *)
  progress_total : Z;                (* ticks added to the progress bar total *)
  progress_messages : nat;           (* progress messages sent so far *)
  trace : list event;                (* operations executed so far, oldest first *)
}.

Definition set_files (f : gmap string file_data → gmap string file_data) (w : world) : world :=
  {| files := f (files w); properties := properties w;
     progress_total := progress_total w; progress_messages := progress_messages w;
     trace := trace w |}.

Definition set_property (name value : string) (w : world) : world :=
  {| files := files w; properties := <[name := value]> (properties w);
     progress_total := progress_total w; progress_messages := progress_messages w;
     trace := trace w |}.

Definition add_progress (ticks : Z) (w : world) : world :=
  {| files := files w; properties := properties w;
     progress_total := progress_total w + ticks;
     progress_messages := S (progress_messages w);
     trace := trace w |}.

Definition log_event (e : event) (w : world) : world :=
  {| files := files w; properties := properties w;
     progress_total := progress_total w; progress_messages := progress_messages w;
     trace := trace w ++ [e] |}.

(** One row of the view over the [TAPInterface] table, as the three reads
    the planner makes from a fetched record. *)
Record msi_record := {
  rec_DisplayName : UINT * string;  (* [msi_format_field(hInstall, hRecord, 2, _)] *)
  rec_Condition : UINT * string;    (* [msi_get_record_string(hRecord, 3, _)] *)
  rec_Component : UINT * string;    (* [msi_get_record_string(hRecord, 4, _)] *)
}.

(** What evaluating a non-empty condition expression gives. *)
Inductive expr_result := expr_false | expr_true | expr_error.

(** The answers of everything the C file calls and does not define: the
    Windows API, and the helpers [msi_get_string], [msi_get_record_string]
    and [msi_format_field] of msiex.c, which are not under src/ and are
    taken as they answer.  An error field holds the error code of the
    call, [ERROR_SUCCESS] when the call succeeds. *)
Record host := {
  (* Windows Installer session *)
  h_MsiGetMode : MSIRUNMODE → bool;
  h_CustomActionData : UINT * string;     (* [msi_get_string(hInstall, "CustomActionData", _)] *)
  h_RollbackDisabled : UINT * string;     (* [MsiGetProperty(hInstall, "RollbackDisabled", _, _)] *)
  h_MsiGetActiveDatabase : bool;          (* a non-zero database handle? *)
  h_MsiDatabaseIsTablePersistent : MSICONDITION;  (* for table [TAPInterface] *)
  h_MsiDatabaseOpenView : UINT;
  h_MsiViewExecute : UINT;
  h_MsiCreateRecord : bool;               (* a non-zero record handle? *)
  h_view : list (UINT * msi_record);      (* what [MsiViewFetch] returns, call after call *)
  h_MsiGetComponentState : string → UINT * INSTALLSTATE * INSTALLSTATE; (* result, iInstalled, iAction *)
  h_condition : string → expr_result;
  h_progress : nat → Z;                   (* answer to the progress message sent after [n] others *)
  h_MsiSetProperty : string → UINT;       (* by property name *)
  (* file system *)
  h_GetTempPath : DWORD * string;         (* error, path *)
  h_GetTempFileName : string → string → DWORD * string; (* path, prefix ↦ error, the unique part of the name *)
  h_create_error : string → DWORD;        (* [CreateFile(_, GENERIC_WRITE, .., CREATE_ALWAYS, ..)] *)
  h_open_error : string → DWORD;          (* [CreateFile(_, GENERIC_READ, .., OPEN_EXISTING, ..)] on a file that exists *)
  h_save_error : string → DWORD;          (* [msica_op_seq_save] into the file of that name *)
  (* TAP driver *)
  h_tap_create : string → DWORD;          (* create an interface and give it this name *)
  h_tap_delete : string → DWORD;          (* delete the interface of this name *)
}.

(** *** Files *)

(** A file handle; the invalid one carries what [GetLastError] returns
    right after the failed [CreateFile]. *)
Inductive HANDLE :=
| INVALID_HANDLE_VALUE (last_error : DWORD)
| file_handle (szFilename : string).

(** [CreateFile(szFilename, GENERIC_READ, FILE_SHARE_READ, NULL,
    OPEN_EXISTING, ..)] *)
Definition CreateFile_OPEN_EXISTING (h : host) (szFilename : string) (w : world) : HANDLE :=
  match files w !! szFilename with
  | None => INVALID_HANDLE_VALUE ERROR_FILE_NOT_FOUND
  | Some _ =>
      if h_open_error h szFilename =? ERROR_SUCCESS then file_handle szFilename
      else INVALID_HANDLE_VALUE (h_open_error h szFilename)
  end.

(** [CreateFile(szFilename, GENERIC_WRITE, FILE_SHARE_READ, NULL,
    CREATE_ALWAYS, ..)]: creates the file, or empties the one there. *)
Definition CreateFile_CREATE_ALWAYS (h : host) (szFilename : string) (w : world) : HANDLE * world :=
  if h_create_error h szFilename =? ERROR_SUCCESS
  then (file_handle szFilename, set_files (insert szFilename (file_seq [])) w)
  else (INVALID_HANDLE_VALUE (h_create_error h szFilename), w).

(** [DeleteFile(szFilename)].  Every call site discards its result; the
    file system is taken to be reliable here, the file is gone afterwards. *)
Definition DeleteFile (szFilename : string) (w : world) : world :=
  set_files (delete szFilename) w.

(** Modelled from the spec: [msica_op_seq_save] of msica_op.c is not under
    src/.  A saved Journal is reconstructed exactly by a later load; a
    failed write leaves content that is no Journal. *)
Definition msica_op_seq_save (h : host) (seq : msica_op_seq) (hFile : HANDLE) (w : world) : DWORD * world :=
  match hFile with
  | INVALID_HANDLE_VALUE _ => (ERROR_INVALID_HANDLE, w)
  | file_handle szFilename =>
      let e := h_save_error h szFilename in
      if e =? ERROR_SUCCESS
      then (ERROR_SUCCESS, set_files (insert szFilename (file_seq seq)) w)
      else (e, set_files (insert szFilename (file_damaged e)) w)
  end.

(** Modelled from the spec: [msica_op_seq_load] of msica_op.c is not under
    src/.  Any decode anomaly is a fatal load failure, and the partially
    built Journal is discarded, not returned. *)
Definition msica_op_seq_load (hFile : HANDLE) (w : world) : DWORD * msica_op_seq :=
  match hFile with
  | INVALID_HANDLE_VALUE _ => (ERROR_INVALID_HANDLE, [])
  | file_handle szFilename =>
      match files w !! szFilename with
      | Some (file_seq ops) => (ERROR_SUCCESS, ops)
      | Some (file_damaged e) => (e, [])
      | None => (ERROR_INVALID_HANDLE, [])
      end
  end.

(** ** Sessions and the executor *)

(** Modelled from the spec: [struct msica_session] of msica_op.h is not
    under src/.  A Session holds the continue-on-error flag, the
    rollback-enabled flag and the two owned cleanup Journals;
    [seq_cleanup] is an array of [MSICA_CLEANUP_ACTION_COUNT] sequences in
    the C file, one field per index here.  The installer handle of the
    Session is the [host] the functions take. *)
Record msica_session := {
  continue_on_error : bool;
  rollback_enabled : bool;
  seq_cleanup_commit : msica_op_seq;    (* [seq_cleanup[MSICA_CLEANUP_ACTION_COMMIT]] *)
  seq_cleanup_rollback : msica_op_seq;  (* [seq_cleanup[MSICA_CLEANUP_ACTION_ROLLBACK]] *)
}.

(** [session->seq_cleanup[i]] *)
Definition seq_cleanup (session : msica_session) (i : nat) : msica_op_seq :=
  match i with
  | O => seq_cleanup_commit session
  | S O => seq_cleanup_rollback session
  | _ => []
  end.

(** [msica_op_seq_add_tail(&session->seq_cleanup[i], op)] *)
Definition seq_cleanup_add_tail (i : nat) (op : msica_op) (session : msica_session) : msica_session :=
  match i with
  | O => {| continue_on_error := continue_on_error session;
            rollback_enabled := rollback_enabled session;
            seq_cleanup_commit := msica_op_seq_add_tail (seq_cleanup_commit session) op;
            seq_cleanup_rollback := seq_cleanup_rollback session |}
  | S O => {| continue_on_error := continue_on_error session;
              rollback_enabled := rollback_enabled session;
              seq_cleanup_commit := seq_cleanup_commit session;
              seq_cleanup_rollback := msica_op_seq_add_tail (seq_cleanup_rollback session) op |}
  | _ => session
  end.

(** Modelled from the spec: [openvpnmsica_session_init(&session, hInstall,
    continue_on_error, rollback_enabled)] is not under src/.  A Session
    holds the two flags and two owned output Journals, empty at first. *)
Definition openvpnmsica_session_init (continue_on_error rollback_enabled : bool) : msica_session :=
  {| continue_on_error := continue_on_error;
     rollback_enabled := rollback_enabled;
     seq_cleanup_commit := [];
     seq_cleanup_rollback := [] |}.

Definition set_rollback_enabled (b : bool) (session : msica_session) : msica_session :=
  {| continue_on_error := continue_on_error session;
     rollback_enabled := b;
     seq_cleanup_commit := seq_cleanup_commit session;
     seq_cleanup_rollback := seq_cleanup_rollback session |}.

(** Modelled from the spec: the operation handlers of msica_op.c are not
    under src/ (table of operation kinds).  enable-rollback sets the
    Session's flag; create-named-interface calls the creation collaborator
    and on success appends the delete-by-name Operation to
    [rollback_cleanup]; delete-interface-by-name calls the deletion
    collaborator; delete-file deletes the path.  A payload that does not
    fit the kind is refused. *)
Definition msica_op_exec (h : host) (op : msica_op) (session : msica_session) (w : world)
  : DWORD * msica_session * world :=
  match op_type op, op_value op with
  | msica_op_rollback_enable, value_bool b =>
      (ERROR_SUCCESS, set_rollback_enabled b session, w)
  | msica_op_tap_interface_create, value_string name =>
      let dwResult := h_tap_create h name in
      if dwResult =? ERROR_SUCCESS
      then (ERROR_SUCCESS,
            seq_cleanup_add_tail MSICA_CLEANUP_ACTION_ROLLBACK
              (msica_op_create_string msica_op_tap_interface_delete_by_name (op_ticks op) name)
              session,
            w)
      else (dwResult, session, w)
  | msica_op_tap_interface_delete_by_name, value_string name =>
      (h_tap_delete h name, session, w)
  | msica_op_file_delete, value_string path =>
      (ERROR_SUCCESS, session, DeleteFile path w)
  | _, _ => (ERROR_BAD_ARGUMENTS, session, w)
  end.

(** Modelled from the spec: [msica_op_seq_process] of msica_op.c is not
    under src/.  Entries are processed strictly in order; on a handler
    failure, continue-on-error records the failure (the first one wins for
    the return code) and goes on, otherwise processing stops and returns
    the failure. *)
Fixpoint msica_op_seq_process_from (h : host) (seq : msica_op_seq) (dwFirst : DWORD)
    (session : msica_session) (w : world) : DWORD * msica_session * world :=
  match seq with
  | [] => (dwFirst, session, w)
  | op :: rest =>
      let '(dwResult, session', w') := msica_op_exec h op session w in
      let w'' := log_event (EvOp op dwResult) w' in
      if dwResult =? ERROR_SUCCESS
      then msica_op_seq_process_from h rest dwFirst session' w''
      else if continue_on_error session'
      then msica_op_seq_process_from h rest
             (if dwFirst =? ERROR_SUCCESS then dwResult else dwFirst) session' w''
      else (dwResult, session', w'')
  end.

Definition msica_op_seq_process (h : host) (seq : msica_op_seq) (session : msica_session) (w : world)
  : DWORD * msica_session * world :=
  msica_op_seq_process_from h seq ERROR_SUCCESS session w.

(** ** ProcessDeferredAction *)

(** [for (size_t i = 0; i < MSICA_CLEANUP_ACTION_COUNT; i++)] *)
Definition cleanup_action_indices : list nat := seq 0 MSICA_CLEANUP_ACTION_COUNT.

(** Lines 591-608: for each cleanup action, schedule the deletion of its
    sequence file in the sequence of the other cleanup action ("After
    commit, delete rollback file. After rollback, delete commit file."). *)
Definition schedule_file_deletes (szSeqFilename : string) (session : msica_session) : msica_session :=
  foldl
    (λ session i,
       seq_cleanup_add_tail (MSICA_CLEANUP_ACTION_COUNT - 1 - i)%nat
         (msica_op_create_string msica_op_file_delete 0
            (deferred_filename_ex szSeqFilename i))
         session)
    session cleanup_action_indices.

(** Lines 609-637: save the cleanup sequences, leaving the loop at the first
    failure.  [dwResultEx] is not initialised in the C code; the loop body
    runs at least once and assigns it. *)
Fixpoint save_cleanup_sequences (h : host) (szSeqFilename : string) (session : msica_session)
    (indices : list nat) (dwResultEx : DWORD) (w : world) : DWORD * world :=
  match indices with
  | [] => (dwResultEx, w)
  | i :: rest =>
      let szFilenameEx := deferred_filename_ex szSeqFilename i in
      let '(hSeqFile, w) := CreateFile_CREATE_ALWAYS h szFilenameEx w in
      match hSeqFile with
      | INVALID_HANDLE_VALUE last_error => (last_error, w)
      | file_handle _ =>
          let '(dwResultEx, w) := msica_op_seq_save h (seq_cleanup session i) hSeqFile w in
          if dwResultEx =? ERROR_SUCCESS
          then save_cleanup_sequences h szSeqFilename session rest dwResultEx w
          else (dwResultEx, w)
      end
  end.

(** Lines 652-661: delete the cleanup sequence files. *)
Definition delete_cleanup_files (szSeqFilename : string) (w : world) : world :=
  foldl (λ w i, DeleteFile (deferred_filename_ex szSeqFilename i) w)
    w cleanup_action_indices.

(** Lines 640-662: "The commit and/or rollback scripts were not written to
    file successfully. Perform the cleanup immediately." *)
Definition cleanup_session (h : host) (szSeqFilename : string) (session : msica_session)
    (dwResultEx : DWORD) (w : world) : world :=
  if dwResultEx =? ERROR_SUCCESS then w
  else
    let session_cleanup := openvpnmsica_session_init true false in
    let '(_, _, w) :=
      msica_op_seq_process h (seq_cleanup session MSICA_CLEANUP_ACTION_ROLLBACK)
        session_cleanup w in
    delete_cleanup_files szSeqFilename w.

(** Line 531: [MsiGetMode(hInstall, MSIRUNMODE_COMMIT) ||
    MsiGetMode(hInstall, MSIRUNMODE_ROLLBACK)] *)
Definition is_cleanup (hInstall : host) : bool :=
  h_MsiGetMode hInstall MSIRUNMODE_COMMIT || h_MsiGetMode hInstall MSIRUNMODE_ROLLBACK.

Definition ProcessDeferredAction (hInstall : host) (w : world) : UINT * world :=
  let bIsCleanup := is_cleanup hInstall in
  (* Get sequence filename and open the file. *)
  let '(uiResult, szSeqFilename) := h_CustomActionData hInstall in
  if negb (uiResult =? ERROR_SUCCESS) then (uiResult, w)
  else
    match CreateFile_OPEN_EXISTING hInstall szSeqFilename w with
    | INVALID_HANDLE_VALUE last_error =>
        let uiResult := last_error in
        if (uiResult =? ERROR_FILE_NOT_FOUND) && bIsCleanup
        then (ERROR_SUCCESS, w)
        else (uiResult, w)
    | file_handle _ as hSeqFile =>
        (* Load sequence. *)
        let '(uiResult, seq) := msica_op_seq_load hSeqFile w in
        if negb (uiResult =? ERROR_SUCCESS) then (uiResult, w)
        else
          (* Prepare session context. *)
          let session := openvpnmsica_session_init bIsCleanup false in
          (* Execute sequence. *)
          let '(uiResult, session, w) := msica_op_seq_process hInstall seq session w in
          if negb bIsCleanup
          then
            let session := schedule_file_deletes szSeqFilename session in
            let '(dwResultEx, w) :=
              save_cleanup_sequences hInstall szSeqFilename session
                cleanup_action_indices ERROR_SUCCESS w in
            let w := cleanup_session hInstall szSeqFilename session dwResultEx w in
            (uiResult, DeleteFile szSeqFilename w)
          else
            (* No cleanup after cleanup support. *)
            (ERROR_SUCCESS, DeleteFile szSeqFilename w)
    end.

(** ** EvaluateTAPInterfaces *)

(** [isspace] and the decimal digits of the C locale. *)
Definition isspace (c : ascii) : bool :=
  let n := nat_of_ascii c in
  ((n =? 32) || ((9 <=? n) && (n <=? 13)))%nat.

Definition digit_value (c : ascii) : option Z :=
  let n := Z.of_nat (nat_of_ascii c) in
  if (48 <=? n) && (n <=? 57) then Some (n - 48) else None.

Fixpoint skip_spaces (s : string) : string :=
  match s with
  | String c s' => if isspace c then skip_spaces s' else s
  | EmptyString => s
  end.

Fixpoint read_digits (s : string) (acc : Z) : Z :=
  match s with
  | String c s' =>
      match digit_value c with
      | Some d => read_digits s' (10 * acc + d)
      | None => acc
      end
  | EmptyString => acc
  end.

Definition INT_MAX : Z := 2147483647.
Definition INT_MIN : Z := -2147483648.

(** [_ttoi]: blanks, an optional sign, decimal digits; the C runtime
    returns [INT_MAX] or [INT_MIN] on overflow. *)
Definition ttoi (s : string) : Z :=
  let v :=
    match skip_spaces s with
    | String "-"%char s' => - read_digits s' 0
    | String "+"%char s' => read_digits s' 0
    | s' => read_digits s' 0
    end in
  Z.max INT_MIN (Z.min INT_MAX v).

(** [_totlower(szValue[0]) == TEXT('y')] *)
Definition starts_with_y (szValue : string) : bool :=
  match szValue with
  | String c _ => bool_decide (c = "y"%char ∨ c = "Y"%char)
  | EmptyString => false
  end.

(** Lines 283-285: "Check and store the rollback enabled state." *)
Definition enable_rollback (hInstall : host) : bool :=
  let '(uiResult, szValue) := h_RollbackDisabled hInstall in
  if uiResult =? ERROR_SUCCESS
  then if negb (ttoi szValue =? 0) || starts_with_y szValue then false else true
  else true.

(** [szActionNames] *)
Definition szActionNames : list string :=
  [ "InstallTAPInterfaces"; "UninstallTAPInterfaces" ].

(** [exec_seq]: one sequence per action name, [exec_seq[0]] and
    [exec_seq[1]]. *)
Abbreviation exec_seq_t := (msica_op_seq * msica_op_seq)%type (only parsing).

Definition exec_seq_at (exec_seq : exec_seq_t) (i : nat) : msica_op_seq :=
  match i with
  | O => fst exec_seq
  | S O => snd exec_seq
  | _ => []
  end.

(** Lines 275-294: both sequences start with the rollback state. *)
Definition exec_seq_init (hInstall : host) : exec_seq_t :=
  let op := msica_op_create_bool msica_op_rollback_enable 0 (enable_rollback hInstall) in
  (msica_op_seq_add_tail [] op, msica_op_seq_add_tail [] op).

(** [MsiEvaluateCondition]: [MSICONDITION_NONE] stands for "no expression
    present", the empty condition. *)
Definition MsiEvaluateCondition (hInstall : host) (szCondition : string) : MSICONDITION :=
  if decide (szCondition = "") then MSICONDITION_NONE
  else match h_condition hInstall szCondition with
       | expr_false => MSICONDITION_FALSE
       | expr_true => MSICONDITION_TRUE
       | expr_error => MSICONDITION_ERROR
       end.

(** Lines 436-443: add the ticks of one interface to the progress total;
    the user may cancel. *)
Definition add_interface_ticks (hInstall : host) (exec_seq : exec_seq_t) (w : world)
  : UINT * exec_seq_t * world :=
  let answer := h_progress hInstall (progress_messages w) in
  let w := add_progress MSICA_INTERFACE_TICK_SIZE w in
  if answer =? IDCANCEL
  then (ERROR_INSTALL_USEREXIT, exec_seq, w)
  else (ERROR_SUCCESS, exec_seq, w).

(** Lines 359-449: one fetched record. *)
Definition evaluate_record (hInstall : host) (hRecord : msi_record) (exec_seq : exec_seq_t)
    (w : world) : UINT * exec_seq_t * world :=
  (* Read interface component ID. *)
  let '(uiResult, szComponent) := rec_Component hRecord in
  if negb (uiResult =? ERROR_SUCCESS) then (uiResult, exec_seq, w)
  else
    (* Get the component state. *)
    let '(uiResult, iInstalled, iAction) := h_MsiGetComponentState hInstall szComponent in
    if negb (uiResult =? ERROR_SUCCESS) then (uiResult, exec_seq, w)
    else
      (* Get interface display name. *)
      let '(uiResult, szDisplayName) := rec_DisplayName hRecord in
      if negb (uiResult =? ERROR_SUCCESS) then (uiResult, exec_seq, w)
      else if iAction >? INSTALLSTATE_BROKEN
      then
        if iAction >=? INSTALLSTATE_LOCAL
        then
          (* Read and evaluate interface condition. *)
          let '(uiResult, szValue) := rec_Condition hRecord in
          if negb (uiResult =? ERROR_SUCCESS) then (uiResult, exec_seq, w)
          else
            match MsiEvaluateCondition hInstall szValue with
            | MSICONDITION_FALSE => (uiResult, exec_seq, w)
            | MSICONDITION_ERROR => (ERROR_INVALID_FIELD, exec_seq, w)
            | _ =>
                (* Component is or should be installed. Schedule interface creation. *)
                add_interface_ticks hInstall
                  (msica_op_seq_add_tail (fst exec_seq)
                     (msica_op_create_string msica_op_tap_interface_create
                        MSICA_INTERFACE_TICK_SIZE szDisplayName),
                   snd exec_seq)
                  w
            end
        else
          (* Component is installed, but should be degraded to advertised/removed.
             Schedule interface deletition. *)
          add_interface_ticks hInstall
            (fst exec_seq,
             msica_op_seq_add_tail (snd exec_seq)
               (msica_op_create_string msica_op_tap_interface_delete_by_name
                  MSICA_INTERFACE_TICK_SIZE szDisplayName))
            w
      else (uiResult, exec_seq, w).

(** Lines 343-452: the fetch loop.  An exhausted view answers
    [ERROR_NO_MORE_ITEMS]. *)
Fixpoint evaluate_records (hInstall : host) (view : list (UINT * msi_record))
    (exec_seq : exec_seq_t) (w : world) : UINT * exec_seq_t * world :=
  match view with
  | [] => (ERROR_SUCCESS, exec_seq, w)
  | (uiResult, hRecord) :: rest =>
      if uiResult =? ERROR_NO_MORE_ITEMS then (ERROR_SUCCESS, exec_seq, w)
      else if negb (uiResult =? ERROR_SUCCESS) then (uiResult, exec_seq, w)
      else
        let '(uiResult, exec_seq, w) := evaluate_record hInstall hRecord exec_seq w in
        if negb (uiResult =? ERROR_SUCCESS) then (uiResult, exec_seq, w)
        else evaluate_records hInstall rest exec_seq w
  end.

(** Lines 118-139: store the cleanup sequence filenames to properties. *)
Fixpoint setup_cleanup_properties (hInstall : host) (szProperty szFilename : string)
    (indices : list nat) (w : world) : DWORD * world :=
  match indices with
  | [] => (ERROR_SUCCESS, w)
  | i :: rest =>
      let szPropertyEx := szProperty +:+ szName (cleanup_action i) in
      let szFilenameEx := setup_filename_ex szFilename i in
      let dwResult := h_MsiSetProperty hInstall szPropertyEx in
      if negb (dwResult =? ERROR_SUCCESS) then (dwResult, w)
      else setup_cleanup_properties hInstall szProperty szFilename rest
             (set_property szPropertyEx szFilenameEx w)
  end.

(** [GetTempFileName(szPath, szPrefix, 0, _)]: the name it makes up is
    the path, a part of its own choice and the extension [.tmp]; with a
    zero [uUnique] it creates the empty file of that name. *)
Definition GetTempFileName (hInstall : host) (szPath szPrefix : string) (w : world)
  : DWORD * string * world :=
  let '(dwResult, szUnique) := h_GetTempFileName hInstall szPath szPrefix in
  if negb (dwResult =? ERROR_SUCCESS) then (dwResult, szPath, w)
  else
    let szTempFileName := szPath +:+ szUnique +:+ ".tmp" in
    (ERROR_SUCCESS, szTempFileName, set_files (insert szTempFileName (file_seq [])) w).

(** [openvpnmsica_setup_sequence_filename(hInstall, szProperty,
    szFilename)]; [szFilename] is what the buffer holds at the call (never
    [NULL] at the call sites), and the second component of the result is
    what it holds on return. *)
Definition openvpnmsica_setup_sequence_filename (hInstall : host) (szProperty szFilename : string)
    (w : world) : DWORD * string * world :=
  (* Generate a random filename in the temporary folder. *)
  let '(dwResult, szTempPath) := h_GetTempPath hInstall in
  if negb (dwResult =? ERROR_SUCCESS) then (dwResult, szFilename, w)
  else
    let szFilename := szTempPath in
    let '(dwResult, szFilename, w) := GetTempFileName hInstall szFilename szProperty w in
    if negb (dwResult =? ERROR_SUCCESS) then (dwResult, szFilename, w)
    else
      (* Store sequence filename to property for deferred custom action. *)
      let dwResult := h_MsiSetProperty hInstall szProperty in
      if negb (dwResult =? ERROR_SUCCESS) then (dwResult, szFilename, w)
      else
        let w := set_property szProperty szFilename w in
        (* Generate and store cleanup operation sequence filenames to properties. *)
        let '(dwResult, w) :=
          setup_cleanup_properties hInstall szProperty szFilename
            cleanup_action_indices w in
        (dwResult, szFilename, w).

(** Lines 462-485: write the sequence files. *)
Fixpoint write_sequence_files (hInstall : host) (indices : list nat) (exec_seq : exec_seq_t)
    (szSeqFilename : list string) (w : world) : UINT * list string * world :=
  match indices with
  | [] => (ERROR_SUCCESS, szSeqFilename, w)
  | i :: rest =>
      let '(uiResult, szFilename, w) :=
        openvpnmsica_setup_sequence_filename hInstall
          (nth i szActionNames "") (nth i szSeqFilename "") w in
      let szSeqFilename := <[i := szFilename]> szSeqFilename in
      if negb (uiResult =? ERROR_SUCCESS) then (uiResult, szSeqFilename, w)
      else
        let '(hSeqFile, w) := CreateFile_CREATE_ALWAYS hInstall szFilename w in
        match hSeqFile with
        | INVALID_HANDLE_VALUE last_error => (last_error, szSeqFilename, w)
        | file_handle _ =>
            let '(uiResult, w) := msica_op_seq_save hInstall (exec_seq_at exec_seq i) hSeqFile w in
            if negb (uiResult =? ERROR_SUCCESS) then (uiResult, szSeqFilename, w)
            else write_sequence_files hInstall rest exec_seq szSeqFilename w
        end
  end.

(** Line 494: [if (szSeqFilename[i][0]) DeleteFile(szSeqFilename[i]);] *)
Definition delete_if_named (w : world) (szFilename : string) : world :=
  match szFilename with
  | EmptyString => w
  | String _ _ => DeleteFile szFilename w
  end.

(** Lines 493-495: [for (size_t i = _countof(szActionNames); i--;)] over
    the array of sequence filenames. *)
Definition delete_sequence_files (szSeqFilename : list string) (w : world) : world :=
  foldl delete_if_named w (reverse szSeqFilename).

(** Lines 459-496: "Write sequence files." and the clean-up when that
    failed. *)
Definition save_exec_seq (hInstall : host) (exec_seq : exec_seq_t) (w : world) : UINT * world :=
  let szSeqFilename := replicate (List.length szActionNames) "" in
  let '(uiResult, szSeqFilename, w) :=
    write_sequence_files hInstall (seq 0 (List.length szActionNames)) exec_seq szSeqFilename w in
  if negb (uiResult =? ERROR_SUCCESS)
  then (uiResult, delete_sequence_files szSeqFilename w)
  else (ERROR_SUCCESS, w).

Definition EvaluateTAPInterfaces (hInstall : host) (w : world) : UINT * world :=
  let exec_seq := exec_seq_init hInstall in
  (* Open MSI database. *)
  if negb (h_MsiGetActiveDatabase hInstall) then (ERROR_INVALID_HANDLE, w)
  else
    (* Check if TAPInterface table exists. If it doesn't exist, there's nothing to do. *)
    match h_MsiDatabaseIsTablePersistent hInstall with
    | MSICONDITION_FALSE | MSICONDITION_TRUE =>
        (* Prepare a query to get a list/view of interfaces. *)
        let uiResult := h_MsiDatabaseOpenView hInstall in
        if negb (uiResult =? ERROR_SUCCESS) then (uiResult, w)
        else
          (* Execute query! *)
          let uiResult := h_MsiViewExecute hInstall in
          if negb (uiResult =? ERROR_SUCCESS) then (uiResult, w)
          else
            (* Create a record to report progress with. *)
            if negb (h_MsiCreateRecord hInstall) then (ERROR_INVALID_HANDLE, w)
            else
              let '(uiResult, exec_seq, w) :=
                evaluate_records hInstall (h_view hInstall) exec_seq w in
              if negb (uiResult =? ERROR_SUCCESS) then (uiResult, w)
              else save_exec_seq hInstall exec_seq w
    | _ => (ERROR_SUCCESS, w)
    end.

(** ** Definitions the statements use *)

(** What the handler of an operation returns; it depends on the host
    alone. *)
Definition op_result (h : host) (op : msica_op) : DWORD :=
  match op_type op, op_value op with
  | msica_op_rollback_enable, value_bool _ => ERROR_SUCCESS
  | msica_op_tap_interface_create, value_string name => h_tap_create h name
  | msica_op_tap_interface_delete_by_name, value_string name => h_tap_delete h name
  | msica_op_file_delete, value_string _ => ERROR_SUCCESS
  | _, _ => ERROR_BAD_ARGUMENTS
  end.

(** The trace of a sequence all of whose operations were executed, in
    order. *)
Definition executed (h : host) (seq : msica_op_seq) : list event :=
  map (λ op, EvOp op (op_result h op)) seq.

(** Persisting the cleanup sequences derived from [szSeqFilename] fails:
    one of the two files cannot be created or cannot be written. *)
Definition cleanup_persistence_fails (h : host) (szSeqFilename : string) : bool :=
  existsb
    (λ i, negb (h_create_error h (deferred_filename_ex szSeqFilename i) =? ERROR_SUCCESS)
          || negb (h_save_error h (deferred_filename_ex szSeqFilename i) =? ERROR_SUCCESS))
    cleanup_action_indices.

(** A world with no file, no property set and nothing executed. *)
Definition empty_world : world :=
  {| files := ∅; properties := ∅; progress_total := 0; progress_messages := 0; trace := [] |}.

Definition with_file (szFilename : string) (data : file_data) (w : world) : world :=
  set_files (insert szFilename data) w.

(** A host for the examples: a deferred or cleanup invocation on
    [C:\Temp\Ins1.tmp], where creating the interface [bad] and deleting the
    interface [gone] fail, and the files [create_error] names cannot be
    created. *)
Definition example_host (commit rollback : bool) (create_error : string → DWORD)
    (state : string → UINT * INSTALLSTATE * INSTALLSTATE) (progress : nat → Z)
    (view : list (UINT * msi_record)) : host :=
  {| h_MsiGetMode := λ m, match m with MSIRUNMODE_COMMIT => commit | MSIRUNMODE_ROLLBACK => rollback end;
     h_CustomActionData := (ERROR_SUCCESS, "C:\Temp\Ins1.tmp");
     h_RollbackDisabled := (ERROR_SUCCESS, "");
     h_MsiGetActiveDatabase := true;
     h_MsiDatabaseIsTablePersistent := MSICONDITION_TRUE;
     h_MsiDatabaseOpenView := ERROR_SUCCESS;
     h_MsiViewExecute := ERROR_SUCCESS;
     h_MsiCreateRecord := true;
     h_view := view;
     h_MsiGetComponentState := state;
     h_condition := λ c, if decide (c = "0") then expr_false
                         else if decide (c = "1") then expr_true else expr_error;
     h_progress := progress;
     h_MsiSetProperty := λ _, ERROR_SUCCESS;
     h_GetTempPath := (ERROR_SUCCESS, "C:\Temp\");
     h_GetTempFileName := λ _ prefix, (ERROR_SUCCESS, string_take 3 prefix +:+ "1");
     h_create_error := create_error;
     h_open_error := λ _, ERROR_SUCCESS;
     h_save_error := λ _, ERROR_SUCCESS;
     h_tap_create := λ name, if decide (name = "bad") then ERROR_GEN_FAILURE else ERROR_SUCCESS;
     h_tap_delete := λ name, if decide (name = "gone") then ERROR_FILE_NOT_FOUND else ERROR_SUCCESS |}.

Definition no_state : string → UINT * INSTALLSTATE * INSTALLSTATE :=
  λ _, (ERROR_SUCCESS, INSTALLSTATE_UNKNOWN, INSTALLSTATE_UNKNOWN).

(** A deferred (not cleanup) invocation. *)
Definition deferred_host (create_error : string → DWORD) : host :=
  example_host false false create_error no_state (λ _, 1) [].

(** A commit cleanup invocation. *)
Definition commit_host : host :=
  example_host true false (λ _, ERROR_SUCCESS) no_state (λ _, 1) [].

Definition install_seq : msica_op_seq :=
  [ msica_op_create_bool msica_op_rollback_enable 0 true;
    msica_op_create_string msica_op_tap_interface_create MSICA_INTERFACE_TICK_SIZE "A" ].

(** A cleanup sequence whose first operation fails. *)
Definition cleanup_seq : msica_op_seq :=
  [ msica_op_create_string msica_op_tap_interface_delete_by_name MSICA_INTERFACE_TICK_SIZE "gone";
    msica_op_create_string msica_op_file_delete 0 "C:\Temp\Ins1-cm.tmp" ].

(** The rollback sequence file cannot be created. *)
Definition rb_create_error : string → DWORD :=
  λ name, if decide (name = "C:\Temp\Ins1-rb.tmp") then 5 else ERROR_SUCCESS.


(** *** Reading a record *)

Definition record_condition (hRecord : msi_record) : string := (rec_Condition hRecord).2.

(** The installed state and the action state of the component that owns
    the record. *)
Definition record_installed (h : host) (hRecord : msi_record) : INSTALLSTATE :=
  (h_MsiGetComponentState h (rec_Component hRecord).2).1.2.
Definition record_action (h : host) (hRecord : msi_record) : INSTALLSTATE :=
  (h_MsiGetComponentState h (rec_Component hRecord).2).2.

(** The component id, the component state and the display name of the
    record are read without error. *)
Definition record_read (h : host) (hRecord : msi_record) : bool :=
  ((rec_Component hRecord).1 =? ERROR_SUCCESS)
  && ((h_MsiGetComponentState h (rec_Component hRecord).2).1.1 =? ERROR_SUCCESS)
  && ((rec_DisplayName hRecord).1 =? ERROR_SUCCESS).

(** The component is going to be present: installed locally, from source
    or by default. *)
Definition going_to_be_present (iAction : INSTALLSTATE) : bool :=
  iAction >=? INSTALLSTATE_LOCAL.

(** The component is going to be removed or degraded to advertised. *)
Definition going_to_be_removed (iAction : INSTALLSTATE) : bool :=
  (INSTALLSTATE_BROKEN <? iAction) && (iAction <? INSTALLSTATE_LOCAL).

(** The component is on the machine now. *)
Definition currently_present (iInstalled : INSTALLSTATE) : bool :=
  iInstalled >=? INSTALLSTATE_LOCAL.

(** The condition is true: no text, or an expression that evaluates to
    true. *)
Definition condition_true (h : host) (szCondition : string) : bool :=
  match MsiEvaluateCondition h szCondition with
  | MSICONDITION_TRUE | MSICONDITION_NONE => true
  | _ => false
  end.

(** The planner gets to evaluate the condition of the record. *)
Definition condition_evaluated (h : host) (hRecord : msi_record) : bool :=
  record_read h hRecord
  && going_to_be_present (record_action h hRecord)
  && ((rec_Condition hRecord).1 =? ERROR_SUCCESS).

(** The record qualifies for an entry in one of the two sequences. *)
Definition qualifies (h : host) (hRecord : msi_record) : bool :=
  record_read h hRecord
  && (going_to_be_removed (record_action h hRecord)
      || (condition_evaluated h hRecord && condition_true h (record_condition hRecord))).




(** What the planner relies on the installer for: a component is reported
    as going to be removed or degraded only when it is installed, the
    action state being the state a component changes to from its installed
    one ("Component is installed, but should be degraded to
    advertised/removed.", line 426). *)
Definition removal_of_installed (h : host) (hRecord : msi_record) : bool :=
  implb (going_to_be_removed (record_action h hRecord))
        (currently_present (record_installed h hRecord)).

(** The entry both sequences start with. *)
Definition enable_rollback_op (h : host) : msica_op :=
  msica_op_create_bool msica_op_rollback_enable 0 (enable_rollback h).


(** A view all of whose fetches succeed. *)
Definition fetched (rows : list msi_record) : list (UINT * msi_record) :=
  map (pair ERROR_SUCCESS) rows.

(** [EvaluateTAPInterfaces] gets as far as the fetch loop: the database
    opens, the table is there, the view opens and executes, the progress
    record is created. *)
Definition fetch_loop_reached (h : host) : bool :=
  h_MsiGetActiveDatabase h
  && match h_MsiDatabaseIsTablePersistent h with
     | MSICONDITION_FALSE | MSICONDITION_TRUE => true
     | _ => false
     end
  && (h_MsiDatabaseOpenView h =? ERROR_SUCCESS)
  && (h_MsiViewExecute h =? ERROR_SUCCESS)
  && h_MsiCreateRecord h.

(** A record whose three fields are read without error. *)
Definition example_record (name condition component : string) : msi_record :=
  {| rec_DisplayName := (ERROR_SUCCESS, name);
     rec_Condition := (ERROR_SUCCESS, condition);
     rec_Component := (ERROR_SUCCESS, component) |}.

(** Component states for the examples: [compA] is absent and going to be
    installed, [compB] is installed and going to be removed, [compC] is
    absent with the action state absent. *)
Definition example_state : string → UINT * INSTALLSTATE * INSTALLSTATE :=
  λ component,
    if decide (component = "compA")
    then (ERROR_SUCCESS, INSTALLSTATE_ABSENT, INSTALLSTATE_LOCAL)
    else if decide (component = "compB")
    then (ERROR_SUCCESS, INSTALLSTATE_LOCAL, INSTALLSTATE_ABSENT)
    else if decide (component = "compC")
    then (ERROR_SUCCESS, INSTALLSTATE_ABSENT, INSTALLSTATE_ABSENT)
    else (ERROR_SUCCESS, INSTALLSTATE_UNKNOWN, INSTALLSTATE_UNKNOWN).

(** A planning host over the given rows. *)
Definition planning_host (create_error : string → DWORD) (progress : nat → Z)
    (rows : list msi_record) : host :=
  example_host false false create_error example_state progress (fetched rows).


(** The rows of the examples, and the host that plans them without any
    failure. *)
Definition example_rows : list msi_record :=
  [ example_record "A" "" "compA"; example_record "B" "0" "compB" ].

Definition example_planning_host : host :=
  planning_host (λ _, ERROR_SUCCESS) (λ _, 1) example_rows.


(** Planning a table whose second row has a condition that does not
    evaluate. *)
Definition bad_condition_record : msi_record := example_record "X" "?" "compA".

Definition bad_condition_host : host :=
  planning_host (λ _, ERROR_SUCCESS) (λ _, 1)
    [ example_record "A" "" "compA"; bad_condition_record; example_record "B" "0" "compB" ].

(** Planning where the user cancels at the second progress message. *)
Definition cancelling_host : host :=
  planning_host (λ _, ERROR_SUCCESS) (λ n, if decide (n = 1%nat) then IDCANCEL else 1)
    example_rows.


(** The array of sequence filenames before the write loop, and the
    indices the loop goes through. *)
Definition szSeqFilename_init : list string := replicate (List.length szActionNames) "".
Definition action_indices : list nat := seq 0 (List.length szActionNames).

(** Planning where the second sequence file cannot be created. *)
Definition uninstall_create_error : string → DWORD :=
  λ name, if decide (name = "C:\Temp\Uni1.tmp") then 5 else ERROR_SUCCESS.

Definition failing_persist_host : host :=
  planning_host uninstall_create_error (λ _, 1) example_rows.

(** ** FindTAPInterfaces *)

(** [GUID] of guiddef.h; the fields are taken modulo their width when
    they are printed. *)
Record GUID := {
  Data1 : Z;        (* unsigned long *)
  Data2 : Z;        (* unsigned short *)
  Data3 : Z;        (* unsigned short *)
  Data4 : list Z;   (* unsigned char [8] *)
}.

Definition hex_digit (d : Z) : ascii :=
  nth (Z.to_nat d) (list_ascii_of_string "0123456789ABCDEF") "0"%char.

(** [z] in [n] upper-case hexadecimal digits, as ["%0nX"] prints an
    unsigned value of that width. *)
Fixpoint hex_fixed (n : nat) (z : Z) : string :=
  match n with
  | O => EmptyString
  | S n' => String (hex_digit ((z / 16 ^ Z.of_nat n') mod 16)) (hex_fixed n' z)
  end.

Definition Data4_at (g : GUID) (i : nat) : Z := nth i (Data4 g) 0.

(** [StringFromIID] of ole32: the GUID in registry format, braces
    included. *)
Definition StringFromIID (g : GUID) : string :=
  "{" +:+ hex_fixed 8 (Data1 g) +:+ "-" +:+ hex_fixed 4 (Data2 g) +:+ "-"
  +:+ hex_fixed 4 (Data3 g) +:+ "-"
  +:+ hex_fixed 2 (Data4_at g 0) +:+ hex_fixed 2 (Data4_at g 1) +:+ "-"
  +:+ hex_fixed 2 (Data4_at g 2) +:+ hex_fixed 2 (Data4_at g 3)
  +:+ hex_fixed 2 (Data4_at g 4) +:+ hex_fixed 2 (Data4_at g 5)
  +:+ hex_fixed 2 (Data4_at g 6) +:+ hex_fixed 2 (Data4_at g 7) +:+ "}".

(** Modelled from the spec: [struct tap_interface_node] of tapctl/tap.h is
    not under src/.  The discovery collaborator supplies, for every
    interface present, its hardware ids and its guid; the C file reads the
    fields [guid] and [szzHardwareIDs], a sequence of strings that an empty
    string ends. *)
Record tap_interface_node := {
  guid : GUID;
  szzHardwareIDs : list string;
}.

(** [_totlower] on the letters of ASCII. *)
Definition totlower (c : ascii) : ascii :=
  let n := nat_of_ascii c in
  if ((65 <=? n) && (n <=? 90))%nat then ascii_of_nat (n + 32) else c.

(** [_tcsicmp]: compares the strings once lowered.  Only the sign of the
    result is specified; it is -1, 0 or 1 here. *)
Fixpoint tcsicmp (s1 s2 : string) : Z :=
  match s1, s2 with
  | EmptyString, EmptyString => 0
  | EmptyString, String _ _ => -1
  | String _ _, EmptyString => 1
  | String c1 s1', String c2 s2' =>
      if decide (totlower c1 = totlower c2) then tcsicmp s1' s2'
      else if (nat_of_ascii (totlower c1) <? nat_of_ascii (totlower c2))%nat then -1
      else 1
  end.

(** Lines 179-204: the loop over the hardware ids of one interface; it
    ends at the first empty string, and at the first id that is the
    component id or the component id under [root\]. *)
Fixpoint is_tap_interface (TAP_WIN_COMPONENT_ID : string) (szzHardwareIDs : list string) : bool :=
  match szzHardwareIDs with
  | [] => false
  | hwid :: rest =>
      match hwid with
      | EmptyString => false
      | String _ _ =>
          if (tcsicmp hwid TAP_WIN_COMPONENT_ID =? 0)
             || (tcsicmp hwid ("root\" +:+ TAP_WIN_COMPONENT_ID) =? 0)
          then true
          else is_tap_interface TAP_WIN_COMPONENT_ID rest
      end
  end.

(** Lines 177-205: the loop over the interfaces.  The result holds the
    action data messages sent to the installer, the list of TAP interfaces
    found and their number. *)
Fixpoint enumerate_interfaces (TAP_WIN_COMPONENT_ID : string)
    (pInterfaceList : list tap_interface_node) (messages : list string)
    (interfaces : list tap_interface_node) (interface_count : nat)
  : list string * list tap_interface_node * nat :=
  match pInterfaceList with
  | [] => (messages, interfaces, interface_count)
  | pInterface :: pNext =>
      if is_tap_interface TAP_WIN_COMPONENT_ID (szzHardwareIDs pInterface)
      then
        (* TAP interface found.  Report the GUID of the interface to installer,
           append interface to the list. *)
        enumerate_interfaces TAP_WIN_COMPONENT_ID pNext
          (messages ++ [ StringFromIID (guid pInterface) ])
          (interfaces ++ [ pInterface ])
          (S interface_count)
      else
        enumerate_interfaces TAP_WIN_COMPONENT_ID pNext messages interfaces interface_count
  end.

(** Lines 214-227: "Prepare semicolon delimited list of TAP interface
    ID(s)": 38 characters of each id, then a semicolon when another
    interface follows and the terminator otherwise. *)
Fixpoint write_interface_ids (interfaces : list tap_interface_node) : string :=
  match interfaces with
  | [] => EmptyString
  | iface :: next =>
      string_take 38 (StringFromIID (guid iface))
      +:+ match next with
          | [] => EmptyString
          | _ :: _ => String ";"%char (write_interface_ids next)
          end
  end.

(** [MsiSetProperty(hInstall, szName, szValue)] *)
Definition MsiSetProperty (hInstall : host) (szName szValue : string) (w : world) : UINT * world :=
  let uiResult := h_MsiSetProperty hInstall szName in
  if negb (uiResult =? ERROR_SUCCESS) then (uiResult, w)
  else (ERROR_SUCCESS, set_property szName szValue w).

(** [FindTAPInterfaces(hInstall)].  The component id is a macro of the
    build configuration, and [tap_list_interfaces] is what the function of
    that name in tapctl/tap.c returns: its result code and the list of the
    interfaces; neither is under src/.  The result holds the return value,
    the action data messages sent, and the world.  The record the messages
    are sent with is taken to be created (the C code does not check it),
    and the answer of the installer to a message is discarded, as in the C
    code. *)
Definition FindTAPInterfaces (TAP_WIN_COMPONENT_ID : string)
    (tap_list_interfaces : DWORD * list tap_interface_node)
    (hInstall : host) (w : world) : UINT * list string * world :=
  (* Get available network interfaces. *)
  let '(uiResult, pInterfaceList) := tap_list_interfaces in
  if negb (uiResult =? ERROR_SUCCESS) then (uiResult, [], w)
  else
    (* Enumerate interfaces. *)
    let '(messages, interfaces, interface_count) :=
      enumerate_interfaces TAP_WIN_COMPONENT_ID pInterfaceList [] [] 0 in
    match interface_count with
    | S _ =>
        (* Prepare semicolon delimited list of TAP interface ID(s). *)
        let szTAPInterfaces := write_interface_ids interfaces in
        (* Set Installer TAPINTERFACES property. *)
        let '(uiResult, w) := MsiSetProperty hInstall "TAPINTERFACES" szTAPInterfaces w in
        (uiResult, messages, w)
    | O => (ERROR_SUCCESS, messages, w)
    end.

(** *** Definitions the statements on FindTAPInterfaces use *)

Definition lower (s : string) : string :=
  string_of_list_ascii (map totlower (list_ascii_of_string s)).

(** The hardware id names the TAP driver. *)
Definition is_tap_hardware_id (TAP_WIN_COMPONENT_ID hwid : string) : Prop :=
  lower hwid = lower TAP_WIN_COMPONENT_ID ∨
  lower hwid = lower ("root\" +:+ TAP_WIN_COMPONENT_ID).

(** The TAP interfaces of a list, in the order of the list. *)
Definition tap_interfaces (TAP_WIN_COMPONENT_ID : string)
    (pInterfaceList : list tap_interface_node) : list tap_interface_node :=
  List.filter (λ i, is_tap_interface TAP_WIN_COMPONENT_ID (szzHardwareIDs i)) pInterfaceList.

Definition interface_ids (interfaces : list tap_interface_node) : list string :=
  map (λ i, StringFromIID (guid i)) interfaces.

(** Two interfaces for the examples: a TAP adapter and another one. *)
Definition example_tap : tap_interface_node :=
  {| guid := {| Data1 := 0x1A2B3C4D; Data2 := 0x5E6F; Data3 := 0x0718;
                Data4 := [ 0x29; 0x3A; 0x4B; 0x5C; 0x6D; 0x7E; 0x8F; 0x90 ] |};
     szzHardwareIDs := [ "ROOT\TAP0901" ] |}.

Definition example_tap2 : tap_interface_node :=
  {| guid := {| Data1 := 1; Data2 := 2; Data3 := 3; Data4 := [ 4; 5; 6; 7; 8; 9; 10; 11 ] |};
     szzHardwareIDs := [ "pci\ven_8086"; "tap0901"; ""; "ignored" ] |}.

Definition example_nic : tap_interface_node :=
  {| guid := {| Data1 := 7; Data2 := 7; Data3 := 7; Data4 := [ 7 ] |};
     szzHardwareIDs := [ "pci\ven_8086"; ""; "tap0901" ] |}.

(** *** Definitions the further statements use *)

(** [MAX_PATH] of minwindef.h. *)
Definition MAX_PATH : nat := 260.

(** The progress ticks the operations of a sequence carry. *)
Definition seq_ticks (seq : msica_op_seq) : Z :=
  foldr (λ op ticks, op_ticks op + ticks) 0 seq.

(** The operation that deletes the sequence file of cleanup action [i]. *)
Definition file_delete_op (szSeqFilename : string) (i : nat) : msica_op :=
  msica_op_create_string msica_op_file_delete 0 (deferred_filename_ex szSeqFilename i).

(** A commit or rollback invocation on the sequence file [data], where
    nothing fails. *)
Definition cleanup_host (commit rollback : bool) (data : string) : host :=
  {| h_MsiGetMode := λ m, match m with MSIRUNMODE_COMMIT => commit | MSIRUNMODE_ROLLBACK => rollback end;
     h_CustomActionData := (ERROR_SUCCESS, data);
     h_RollbackDisabled := (ERROR_SUCCESS, "");
     h_MsiGetActiveDatabase := true;
     h_MsiDatabaseIsTablePersistent := MSICONDITION_TRUE;
     h_MsiDatabaseOpenView := ERROR_SUCCESS;
     h_MsiViewExecute := ERROR_SUCCESS;
     h_MsiCreateRecord := true;
     h_view := [];
     h_MsiGetComponentState := no_state;
     h_condition := λ _, expr_true;
     h_progress := λ _, 1;
     h_MsiSetProperty := λ _, ERROR_SUCCESS;
     h_GetTempPath := (ERROR_SUCCESS, "C:\Temp\");
     h_GetTempFileName := λ _ prefix, (ERROR_SUCCESS, string_take 3 prefix +:+ "1");
     h_create_error := λ _, ERROR_SUCCESS;
     h_open_error := λ _, ERROR_SUCCESS;
     h_save_error := λ _, ERROR_SUCCESS;
     h_tap_create := λ _, ERROR_SUCCESS;
     h_tap_delete := λ _, ERROR_SUCCESS |}.

(** A world whose install sequence file is there, and one where it does
    not load. *)
Definition planned_world : world :=
  with_file "C:\Temp\Ins1.tmp" (file_seq install_seq) empty_world.

Definition damaged_world : world :=
  with_file "C:\Temp\Ins1.tmp" (file_damaged 13) empty_world.

(** A planning host whose database has no [TAPInterface] table. *)
Definition no_table_host : host :=
  {| h_MsiGetMode := λ _, false;
     h_CustomActionData := (ERROR_SUCCESS, "");
     h_RollbackDisabled := (ERROR_SUCCESS, "");
     h_MsiGetActiveDatabase := true;
     h_MsiDatabaseIsTablePersistent := MSICONDITION_NONE;
     h_MsiDatabaseOpenView := ERROR_SUCCESS;
     h_MsiViewExecute := ERROR_SUCCESS;
     h_MsiCreateRecord := true;
     h_view := fetched example_rows;
     h_MsiGetComponentState := example_state;
     h_condition := λ _, expr_true;
     h_progress := λ _, 1;
     h_MsiSetProperty := λ _, ERROR_SUCCESS;
     h_GetTempPath := (ERROR_SUCCESS, "C:\Temp\");
     h_GetTempFileName := λ _ prefix, (ERROR_SUCCESS, string_take 3 prefix +:+ "1");
     h_create_error := λ _, ERROR_SUCCESS;
     h_open_error := λ _, ERROR_SUCCESS;
     h_save_error := λ _, ERROR_SUCCESS;
     h_tap_create := λ _, ERROR_SUCCESS;
     h_tap_delete := λ _, ERROR_SUCCESS |}.

(** * Properties *)

(** Take the branch of a call that returned [ERROR_SUCCESS]. *)
Ltac success_branch :=
  change (negb (ERROR_SUCCESS =? ERROR_SUCCESS)) with false; cbv beta iota.

(** ** Strings and file names *)

Lemma string_take_drop (n : nat) (s : string) :
  string_take n s +:+ string_drop n s = s.
Proof.
  revert s; induction n as [|n IH]; intros [|c s]; try reflexivity.
  change (String c (string_take n s +:+ string_drop n s) = String c s).
  by rewrite IH.
Qed.

Lemma PathFindExtension_scan_spec (s : string) :
  ∀ pos lastpoint,
    let r := PathFindExtension_scan s pos lastpoint in
    lastpoint = Some r ∨
    ((pos ≤ r)%nat ∧
     (string_drop (r - pos) s = "" ∨ ∃ e, string_drop (r - pos) s = String "." e)).
Proof.
  induction s as [|c s IH]; intros pos lastpoint; simpl.
  - destruct lastpoint as [p|]; [by left|].
    right. split; [lia|]. left. by rewrite Nat.sub_diag.
  - assert (Hstep : ∀ r, (S pos ≤ r)%nat →
      (string_drop (r - S pos) s = "" ∨ ∃ e, string_drop (r - S pos) s = String "." e) →
      (pos ≤ r)%nat ∧
      (string_drop (r - pos) (String c s) = "" ∨
       ∃ e, string_drop (r - pos) (String c s) = String "." e)).
    { intros r Hr Hd. split; [lia|].
      replace (r - pos)%nat with (S (r - S pos)) by lia. exact Hd. }
    destruct (decide (c = "\"%char ∨ c = " "%char)) as [_|_].
    + destruct (IH (S pos) None) as [?|[Hr Hd]]; [done|]. right. by apply Hstep.
    + destruct (decide (c = "."%char)) as [->|_].
      * destruct (IH (S pos) (Some pos)) as [Heq|[Hr Hd]].
        -- injection Heq as Heq. right. rewrite <- Heq. split; [lia|].
           right. rewrite Nat.sub_diag. by eexists.
        -- right. by apply Hstep.
      * destruct (IH (S pos) lastpoint) as [Heq|[Hr Hd]]; [by left|].
        right. by apply Hstep.
Qed.

Lemma PathFindExtension_spec (s : string) :
  string_drop (PathFindExtension s) s = "" ∨
  ∃ e, string_drop (PathFindExtension s) s = String "." e.
Proof.
  destruct (PathFindExtension_scan_spec s 0 None) as [?|[_ Hd]]; [done|].
  by rewrite Nat.sub_0_r in Hd.
Qed.

(** ** The executor *)

Section Executor.

Context (h : host).

Lemma msica_op_exec_result op session w :
  (msica_op_exec h op session w).1.1 = op_result h op.
Proof.
  unfold msica_op_exec, op_result.
  destruct (op_type op), (op_value op); try reflexivity.
  destruct (Z.eqb_spec (h_tap_create h s) ERROR_SUCCESS) as [->|]; reflexivity.
Qed.

Lemma msica_op_exec_flags op session w :
  continue_on_error (msica_op_exec h op session w).1.2 = continue_on_error session.
Proof.
  unfold msica_op_exec.
  destruct (op_type op), (op_value op); try reflexivity.
  destruct (h_tap_create h s =? ERROR_SUCCESS); reflexivity.
Qed.

Lemma msica_op_exec_trace op session w :
  trace (msica_op_exec h op session w).2 = trace w.
Proof.
  unfold msica_op_exec.
  destruct (op_type op), (op_value op); try reflexivity.
  destruct (h_tap_create h s =? ERROR_SUCCESS); reflexivity.
Qed.

(** With continue-on-error every operation of the sequence is executed,
    whatever the handlers return. *)
Lemma msica_op_seq_process_from_continue seq :
  ∀ dwFirst session w,
    continue_on_error session = true →
    trace (msica_op_seq_process_from h seq dwFirst session w).2
      = trace w ++ executed h seq.
Proof.
  induction seq as [|op rest IH]; intros dwFirst session w Hc; simpl.
  - by rewrite app_nil_r.
  - pose proof (msica_op_exec_result op session w) as Hr.
    pose proof (msica_op_exec_flags op session w) as Hf.
    pose proof (msica_op_exec_trace op session w) as Ht.
    destruct (msica_op_exec h op session w) as [[dwResult session'] w'].
    simpl in Hr, Hf, Ht. subst dwResult. rewrite Hc in Hf.
    destruct (op_result h op =? ERROR_SUCCESS).
    + rewrite IH by done. simpl. rewrite Ht. by rewrite <- app_assoc.
    + rewrite Hf. rewrite IH by done. simpl. rewrite Ht. by rewrite <- app_assoc.
Qed.

Lemma msica_op_seq_process_continue seq rollback w :
  trace (msica_op_seq_process h seq (openvpnmsica_session_init true rollback) w).2
    = trace w ++ executed h seq.
Proof. by apply msica_op_seq_process_from_continue. Qed.

(** Without continue-on-error the first failure ends the processing: the
    operations after it are not executed, and its code is returned. *)
Lemma msica_op_seq_process_stops op rest rollback w :
  op_result h op ≠ ERROR_SUCCESS →
  let result :=
    msica_op_seq_process h (op :: rest) (openvpnmsica_session_init false rollback) w in
  result.1.1 = op_result h op ∧
  trace result.2 = trace w ++ [ EvOp op (op_result h op) ].
Proof.
  intros Hfail. unfold msica_op_seq_process. cbn [msica_op_seq_process_from].
  pose proof (msica_op_exec_result op (openvpnmsica_session_init false rollback) w) as Hr.
  pose proof (msica_op_exec_flags op (openvpnmsica_session_init false rollback) w) as Hf.
  pose proof (msica_op_exec_trace op (openvpnmsica_session_init false rollback) w) as Ht.
  destruct (msica_op_exec h op _ w) as [[dwResult session'] w'].
  cbn in Hr, Hf, Ht. subst dwResult.
  apply Z.eqb_neq in Hfail. rewrite Hfail, Hf. cbn. by rewrite Ht.
Qed.

End Executor.

(** ** ProcessDeferredAction *)

Lemma save_cleanup_sequences_trace h szSeqFilename session indices :
  ∀ dwResultEx w,
    trace (save_cleanup_sequences h szSeqFilename session indices dwResultEx w).2 = trace w.
Proof.
  induction indices as [|i rest IH]; intros dwResultEx w; simpl; [done|].
  unfold CreateFile_CREATE_ALWAYS.
  destruct (h_create_error h _ =? ERROR_SUCCESS); simpl; [|reflexivity].
  destruct (h_save_error h _ =? ERROR_SUCCESS) eqn:Hsave; simpl; rewrite ?Hsave;
    [|reflexivity].
  by rewrite IH.
Qed.

Lemma save_cleanup_sequences_fails h szSeqFilename session dwResultEx w :
  cleanup_persistence_fails h szSeqFilename = true →
  (save_cleanup_sequences h szSeqFilename session cleanup_action_indices dwResultEx w).1
    ≠ ERROR_SUCCESS.
Proof.
  unfold cleanup_persistence_fails, cleanup_action_indices. simpl.
  unfold CreateFile_CREATE_ALWAYS.
  destruct (Z.eqb_spec (h_create_error h (deferred_filename_ex szSeqFilename 0)) ERROR_SUCCESS);
    simpl; [|done].
  destruct (h_save_error h (deferred_filename_ex szSeqFilename 0) =? ERROR_SUCCESS) eqn:Hs0;
    simpl; rewrite ?Hs0; simpl; [|by apply Z.eqb_neq in Hs0].
  destruct (Z.eqb_spec (h_create_error h (deferred_filename_ex szSeqFilename 1)) ERROR_SUCCESS);
    simpl; [|done].
  destruct (h_save_error h (deferred_filename_ex szSeqFilename 1) =? ERROR_SUCCESS) eqn:Hs1;
    simpl; rewrite ?Hs1; simpl; [done|by apply Z.eqb_neq in Hs1].
Qed.

Lemma ProcessDeferredAction_loaded hInstall w szSeqFilename seq :
  h_CustomActionData hInstall = (ERROR_SUCCESS, szSeqFilename) →
  CreateFile_OPEN_EXISTING hInstall szSeqFilename w = file_handle szSeqFilename →
  msica_op_seq_load (file_handle szSeqFilename) w = (ERROR_SUCCESS, seq) →
  ProcessDeferredAction hInstall w =
    let '(uiResult, session, w1) :=
      msica_op_seq_process hInstall seq
        (openvpnmsica_session_init (is_cleanup hInstall) false) w in
    if negb (is_cleanup hInstall)
    then
      let session := schedule_file_deletes szSeqFilename session in
      let '(dwResultEx, w2) :=
        save_cleanup_sequences hInstall szSeqFilename session
          cleanup_action_indices ERROR_SUCCESS w1 in
      (uiResult,
       DeleteFile szSeqFilename (cleanup_session hInstall szSeqFilename session dwResultEx w2))
    else (ERROR_SUCCESS, DeleteFile szSeqFilename w1).
Proof.
  intros Hdata Hopen Hload. unfold ProcessDeferredAction.
  rewrite Hdata. cbv beta iota zeta.
  success_branch.
  rewrite Hopen. cbv beta iota zeta. rewrite Hload. cbv beta iota zeta.
  success_branch.
  destruct (msica_op_seq_process _ _ _ _) as [[uiResult session] w1].
  destruct (is_cleanup hInstall); cbv [negb]; cbv beta iota zeta; [done|].
  by destruct (save_cleanup_sequences _ _ _ _ _ _).
Qed.

(** C1 (amended): in a non-cleanup invocation whose sequence file loaded,
    when one of the two cleanup sequence files cannot be created or written,
    the in-memory rollback cleanup sequence (what the execution put there and
    the deletion of the commit file) is executed entry by entry whatever the
    handlers return, neither cleanup file exists afterwards, and the
    invocation returns the result of executing the loaded sequence: the
    persistence failure code is not returned. *)
Theorem C1_persistence_failure_cleans_up_immediately
    (hInstall : host) (w : world) (szSeqFilename : string) (seq : msica_op_seq) :
  is_cleanup hInstall = false →
  h_CustomActionData hInstall = (ERROR_SUCCESS, szSeqFilename) →
  CreateFile_OPEN_EXISTING hInstall szSeqFilename w = file_handle szSeqFilename →
  msica_op_seq_load (file_handle szSeqFilename) w = (ERROR_SUCCESS, seq) →
  cleanup_persistence_fails hInstall szSeqFilename = true →
  let '(uiResult, session, w1) :=
    msica_op_seq_process hInstall seq (openvpnmsica_session_init false false) w in
  let rollback_cleanup :=
    seq_cleanup_rollback session ++
    [ msica_op_create_string msica_op_file_delete 0
        (deferred_filename_ex szSeqFilename MSICA_CLEANUP_ACTION_COMMIT) ] in
  let '(uiReturned, w') := ProcessDeferredAction hInstall w in
  trace w' = trace w1 ++ executed hInstall rollback_cleanup ∧
  files w' !! deferred_filename_ex szSeqFilename MSICA_CLEANUP_ACTION_COMMIT = None ∧
  files w' !! deferred_filename_ex szSeqFilename MSICA_CLEANUP_ACTION_ROLLBACK = None ∧
  uiReturned = uiResult.
Proof.
  intros Hmode Hdata Hopen Hload Hfails.
  rewrite (ProcessDeferredAction_loaded _ _ _ _ Hdata Hopen Hload), Hmode.
  destruct (msica_op_seq_process _ _ _ _) as [[uiResult session] w1].
  cbv [negb]. cbv beta iota zeta.
  pose proof (save_cleanup_sequences_fails hInstall szSeqFilename
                (schedule_file_deletes szSeqFilename session) ERROR_SUCCESS w1 Hfails) as Hne.
  pose proof (save_cleanup_sequences_trace hInstall szSeqFilename
                (schedule_file_deletes szSeqFilename session)
                cleanup_action_indices ERROR_SUCCESS w1) as Htr.
  destruct (save_cleanup_sequences _ _ _ _ _ _) as [dwResultEx w2].
  simpl in Hne, Htr. unfold cleanup_session.
  destruct (Z.eqb_spec dwResultEx ERROR_SUCCESS) as [|_]; [done|].
  cbv beta iota zeta.
  pose proof (msica_op_seq_process_continue hInstall
                (seq_cleanup (schedule_file_deletes szSeqFilename session)
                   MSICA_CLEANUP_ACTION_ROLLBACK) false w2) as Hrun.
  destruct (msica_op_seq_process _ _ _ w2) as [[dwCleanup session'] w3].
  simpl in Hrun. repeat split.
  - simpl. rewrite Hrun, Htr. reflexivity.
  - simpl. apply lookup_delete_None. right. apply lookup_delete_None. right.
    apply lookup_delete_None. by left.
  - simpl. apply lookup_delete_None. right. apply lookup_delete_None. by left.
Qed.

Lemma C1_persistence_failure_witness :
  let '(uiResult, session, w1) :=
    msica_op_seq_process (deferred_host rb_create_error) install_seq
      (openvpnmsica_session_init false false)
      (with_file "C:\Temp\Ins1.tmp" (file_seq install_seq) empty_world) in
  let rollback_cleanup :=
    seq_cleanup_rollback session ++
    [ msica_op_create_string msica_op_file_delete 0
        (deferred_filename_ex "C:\Temp\Ins1.tmp" MSICA_CLEANUP_ACTION_COMMIT) ] in
  let '(uiReturned, w') :=
    ProcessDeferredAction (deferred_host rb_create_error)
      (with_file "C:\Temp\Ins1.tmp" (file_seq install_seq) empty_world) in
  trace w' = trace w1 ++ executed (deferred_host rb_create_error) rollback_cleanup ∧
  files w' !! deferred_filename_ex "C:\Temp\Ins1.tmp" MSICA_CLEANUP_ACTION_COMMIT = None ∧
  files w' !! deferred_filename_ex "C:\Temp\Ins1.tmp" MSICA_CLEANUP_ACTION_ROLLBACK = None ∧
  uiReturned = uiResult.
Proof.
  apply (C1_persistence_failure_cleans_up_immediately
           (deferred_host rb_create_error)
           (with_file "C:\Temp\Ins1.tmp" (file_seq install_seq) empty_world)
           "C:\Temp\Ins1.tmp" install_seq);
    vm_compute; reflexivity.
Defined.

(** The claim as stated fails: the loaded sequence executes without error,
    the rollback cleanup file cannot be created (error 5), and the
    invocation returns [ERROR_SUCCESS], not the persistence failure. *)
Lemma C1_returns_execution_result_counterexample :
  let h := deferred_host rb_create_error in
  let w := with_file "C:\Temp\Ins1.tmp" (file_seq install_seq) empty_world in
  let '(uiResult, session, w1) :=
    msica_op_seq_process h install_seq (openvpnmsica_session_init false false) w in
  let dwResultEx :=
    (save_cleanup_sequences h "C:\Temp\Ins1.tmp"
       (schedule_file_deletes "C:\Temp\Ins1.tmp" session)
       cleanup_action_indices ERROR_SUCCESS w1).1 in
  is_cleanup h = false ∧
  cleanup_persistence_fails h "C:\Temp\Ins1.tmp" = true ∧
  dwResultEx = 5 ∧
  (ProcessDeferredAction h w).1 = ERROR_SUCCESS ∧
  (ProcessDeferredAction h w).1 ≠ dwResultEx.
Proof. vm_compute. repeat split; discriminate. Qed.

(** C5: when the sequence file named by [CustomActionData] does not exist,
    a commit or rollback invocation returns [ERROR_SUCCESS] and any other
    invocation returns an error code, [ERROR_FILE_NOT_FOUND]; either way
    the world is as before: no operation was executed, no file touched. *)
Theorem C5_missing_sequence_file
    (hInstall : host) (w : world) (szSeqFilename : string) :
  h_CustomActionData hInstall = (ERROR_SUCCESS, szSeqFilename) →
  files w !! szSeqFilename = None →
  (is_cleanup hInstall = true →
     ProcessDeferredAction hInstall w = (ERROR_SUCCESS, w)) ∧
  (is_cleanup hInstall = false →
     ProcessDeferredAction hInstall w = (ERROR_FILE_NOT_FOUND, w) ∧
     ERROR_FILE_NOT_FOUND ≠ ERROR_SUCCESS).
Proof.
  intros Hdata Hnone. unfold ProcessDeferredAction, CreateFile_OPEN_EXISTING.
  rewrite Hdata. cbv beta iota zeta. rewrite Hnone.
  success_branch.
  split; intros ->; [reflexivity|]. split; [reflexivity|discriminate].
Qed.

Lemma C5_missing_sequence_file_witness :
  (is_cleanup commit_host = true →
     ProcessDeferredAction commit_host empty_world = (ERROR_SUCCESS, empty_world)) ∧
  (is_cleanup commit_host = false →
     ProcessDeferredAction commit_host empty_world = (ERROR_FILE_NOT_FOUND, empty_world) ∧
     ERROR_FILE_NOT_FOUND ≠ ERROR_SUCCESS).
Proof.
  apply (C5_missing_sequence_file commit_host empty_world "C:\Temp\Ins1.tmp");
    reflexivity.
Defined.

(** C6: in a commit or rollback invocation whose sequence file loaded,
    every operation of the loaded sequence is executed, in order, whatever
    the handlers return (the session continues on error), and the
    invocation returns [ERROR_SUCCESS]. *)
Theorem C6_cleanup_pass_reports_success
    (hInstall : host) (w : world) (szSeqFilename : string) (seq : msica_op_seq) :
  is_cleanup hInstall = true →
  h_CustomActionData hInstall = (ERROR_SUCCESS, szSeqFilename) →
  CreateFile_OPEN_EXISTING hInstall szSeqFilename w = file_handle szSeqFilename →
  msica_op_seq_load (file_handle szSeqFilename) w = (ERROR_SUCCESS, seq) →
  let executor := msica_op_seq_process hInstall seq (openvpnmsica_session_init true false) w in
  ProcessDeferredAction hInstall w = (ERROR_SUCCESS, DeleteFile szSeqFilename executor.2) ∧
  trace (ProcessDeferredAction hInstall w).2 = trace w ++ executed hInstall seq.
Proof.
  intros Hmode Hdata Hopen Hload executor.
  rewrite (ProcessDeferredAction_loaded _ _ _ _ Hdata Hopen Hload), Hmode.
  pose proof (msica_op_seq_process_continue hInstall seq false w) as Hrun.
  fold executor in Hrun |- *.
  destruct executor as [[uiResult session] w1]. cbv [negb]. cbv beta iota zeta.
  split; [reflexivity|]. exact Hrun.
Qed.

Lemma C6_cleanup_pass_witness :
  let w := with_file "C:\Temp\Ins1.tmp" (file_seq cleanup_seq) empty_world in
  let executor :=
    msica_op_seq_process commit_host cleanup_seq (openvpnmsica_session_init true false) w in
  ProcessDeferredAction commit_host w
    = (ERROR_SUCCESS, DeleteFile "C:\Temp\Ins1.tmp" executor.2) ∧
  trace (ProcessDeferredAction commit_host w).2 = trace w ++ executed commit_host cleanup_seq.
Proof.
  apply (C6_cleanup_pass_reports_success commit_host
           (with_file "C:\Temp\Ins1.tmp" (file_seq cleanup_seq) empty_world)
           "C:\Temp\Ins1.tmp" cleanup_seq);
    vm_compute; reflexivity.
Defined.

(** The first operation of the example cleanup sequence does fail, and the
    second one is executed all the same. *)
Example cleanup_seq_trace :
  executed commit_host cleanup_seq =
  [ EvOp (msica_op_create_string msica_op_tap_interface_delete_by_name
            MSICA_INTERFACE_TICK_SIZE "gone") ERROR_FILE_NOT_FOUND;
    EvOp (msica_op_create_string msica_op_file_delete 0 "C:\Temp\Ins1-cm.tmp") ERROR_SUCCESS ].
Proof. reflexivity. Qed.

(** C10: once the sequence file is open, it is deleted before the
    invocation returns if and only if it loaded: after a successful load the
    file does not exist on return, whatever execution and persistence did;
    after a failed load the invocation returns the load error and the world,
    the file included, is as before. *)
Theorem C10_loaded_sequence_file_is_deleted
    (hInstall : host) (w : world) (szSeqFilename : string) :
  h_CustomActionData hInstall = (ERROR_SUCCESS, szSeqFilename) →
  CreateFile_OPEN_EXISTING hInstall szSeqFilename w = file_handle szSeqFilename →
  let uiLoad := (msica_op_seq_load (file_handle szSeqFilename) w).1 in
  (uiLoad = ERROR_SUCCESS →
     files (ProcessDeferredAction hInstall w).2 !! szSeqFilename = None) ∧
  (uiLoad ≠ ERROR_SUCCESS →
     ProcessDeferredAction hInstall w = (uiLoad, w) ∧
     is_Some (files w !! szSeqFilename)).
Proof.
  intros Hdata Hopen uiLoad. subst uiLoad.
  destruct (msica_op_seq_load (file_handle szSeqFilename) w) as [uiLoad seq] eqn:Hload.
  simpl. split.
  - intros ->.
    rewrite (ProcessDeferredAction_loaded _ _ _ _ Hdata Hopen Hload).
    destruct (msica_op_seq_process _ _ _ _) as [[uiResult session] w1].
    destruct (is_cleanup hInstall); cbv [negb]; cbv beta iota zeta.
    + simpl. apply lookup_delete_eq.
    + destruct (save_cleanup_sequences _ _ _ _ _ _) as [dwResultEx w2].
      simpl. apply lookup_delete_eq.
  - intros Hne. split.
    + unfold ProcessDeferredAction. rewrite Hdata. cbv beta iota zeta.
      success_branch.
      rewrite Hopen. cbv beta iota zeta. rewrite Hload. cbv beta iota zeta.
      by destruct (Z.eqb_spec uiLoad ERROR_SUCCESS).
    + unfold CreateFile_OPEN_EXISTING in Hopen.
      destruct (files w !! szSeqFilename); [by eexists|discriminate].
Qed.

Lemma C10_loaded_sequence_file_witness :
  let w := with_file "C:\Temp\Ins1.tmp" (file_seq install_seq) empty_world in
  let uiLoad := (msica_op_seq_load (file_handle "C:\Temp\Ins1.tmp") w).1 in
  (uiLoad = ERROR_SUCCESS →
     files (ProcessDeferredAction (deferred_host rb_create_error) w).2
       !! "C:\Temp\Ins1.tmp" = None) ∧
  (uiLoad ≠ ERROR_SUCCESS →
     ProcessDeferredAction (deferred_host rb_create_error) w = (uiLoad, w) ∧
     is_Some (files w !! "C:\Temp\Ins1.tmp")).
Proof.
  apply (C10_loaded_sequence_file_is_deleted (deferred_host rb_create_error)
           (with_file "C:\Temp\Ins1.tmp" (file_seq install_seq) empty_world)
           "C:\Temp\Ins1.tmp");
    vm_compute; reflexivity.
Defined.

(** ** EvaluateTAPInterfaces *)











(** In the example the row of the component that is installed and going
    to be removed, and no other, gets its delete entry. *)
Example uninstall_sequence_scenario :
  (evaluate_records example_planning_host (fetched example_rows)
     (exec_seq_init example_planning_host) empty_world).1.2.2
  = [ msica_op_create_bool msica_op_rollback_enable 0 true;
      msica_op_create_string msica_op_tap_interface_delete_by_name
        MSICA_INTERFACE_TICK_SIZE "B" ].
Proof. reflexivity. Qed.

(** The code reads the installed state and leaves the test of it to the
    installer: outside the precondition, for a component absent now whose
    action state is absent, the branch of the removal is taken all the
    same. *)
Example installed_state_is_left_to_the_installer :
  let hRecord := example_record "C" "" "compC" in
  let h := planning_host (λ _, ERROR_SUCCESS) (λ _, 1) [ hRecord ] in
  removal_of_installed h hRecord = false ∧
  (evaluate_records h (h_view h) (exec_seq_init h) empty_world).1.2.2 =
    [ enable_rollback_op h;
      msica_op_create_string msica_op_tap_interface_delete_by_name
        MSICA_INTERFACE_TICK_SIZE "C" ].
Proof. vm_compute. by split. Qed.



(** The scenario of the specification: A has no condition and its
    component is going to be installed; B is not planned for creation. *)
Example install_sequence_scenario :
  let h := example_planning_host in
  (evaluate_records h (h_view h) (exec_seq_init h) empty_world).1.2.1
    = [ msica_op_create_bool msica_op_rollback_enable 0 true;
        msica_op_create_string msica_op_tap_interface_create MSICA_INTERFACE_TICK_SIZE "A" ].
Proof. reflexivity. Qed.

Example ttoi_values :
  ttoi "1" = 1 ∧ ttoi " -12x" = -12 ∧ ttoi "yes" = 0 ∧ ttoi "99999999999" = INT_MAX ∧
  starts_with_y "Yes" = true ∧ starts_with_y "no" = false.
Proof. repeat split. Qed.

(** Planning the example rows writes both sequence files and publishes
    their names and the names of their cleanup files. *)
Example planning_writes_sequence_files :
  let planned := EvaluateTAPInterfaces example_planning_host empty_world in
  planned.1 = ERROR_SUCCESS ∧
  files planned.2 !! "C:\Temp\Ins1.tmp"
    = Some (file_seq
              [ msica_op_create_bool msica_op_rollback_enable 0 true;
                msica_op_create_string msica_op_tap_interface_create
                  MSICA_INTERFACE_TICK_SIZE "A" ]) ∧
  files planned.2 !! "C:\Temp\Uni1.tmp"
    = Some (file_seq
              [ msica_op_create_bool msica_op_rollback_enable 0 true;
                msica_op_create_string msica_op_tap_interface_delete_by_name
                  MSICA_INTERFACE_TICK_SIZE "B" ]) ∧
  properties planned.2 !! "InstallTAPInterfaces" = Some "C:\Temp\Ins1.tmp" ∧
  properties planned.2 !! "InstallTAPInterfacesRollback" = Some "C:\Temp\Ins1-rb.tmp" ∧
  progress_total planned.2 = 2 * MSICA_INTERFACE_TICK_SIZE.
Proof. vm_compute. repeat split. Qed.

(** The deferred action on the planned install sequence leaves the two
    cleanup sequence files and deletes the one it was given. *)
Example deferred_action_writes_cleanup_files :
  let planned := EvaluateTAPInterfaces example_planning_host empty_world in
  let processed := ProcessDeferredAction (deferred_host (λ _, ERROR_SUCCESS)) planned.2 in
  processed.1 = ERROR_SUCCESS ∧
  files processed.2 !! "C:\Temp\Ins1.tmp" = None ∧
  files processed.2 !! "C:\Temp\Ins1-cm.tmp"
    = Some (file_seq [ msica_op_create_string msica_op_file_delete 0 "C:\Temp\Ins1-rb.tmp" ]) ∧
  files processed.2 !! "C:\Temp\Ins1-rb.tmp"
    = Some (file_seq
              [ msica_op_create_string msica_op_tap_interface_delete_by_name
                  MSICA_INTERFACE_TICK_SIZE "A";
                msica_op_create_string msica_op_file_delete 0 "C:\Temp\Ins1-cm.tmp" ]).
Proof. vm_compute. repeat split. Qed.

Lemma EvaluateTAPInterfaces_fetch_loop h w :
  fetch_loop_reached h = true →
  EvaluateTAPInterfaces h w =
    let '(uiResult, exec_seq, w1) := evaluate_records h (h_view h) (exec_seq_init h) w in
    if negb (uiResult =? ERROR_SUCCESS) then (uiResult, w1)
    else save_exec_seq h exec_seq w1.
Proof.
  unfold fetch_loop_reached, EvaluateTAPInterfaces.
  intros Hreach. repeat (apply andb_prop in Hreach as [Hreach ?]).
  rewrite Hreach. cbv [negb]. cbv beta iota.
  destruct (h_MsiDatabaseIsTablePersistent h); try discriminate.
  all: cbv beta iota zeta.
  all: match goal with H : (h_MsiDatabaseOpenView _ =? _) = true |- _ => rewrite H end.
  all: match goal with H : (h_MsiViewExecute _ =? _) = true |- _ => rewrite H end.
  all: match goal with H : h_MsiCreateRecord _ = true |- _ => rewrite H end.
  all: reflexivity.
Qed.

Lemma evaluate_records_app h rows rest :
  ∀ exec_seq w,
    evaluate_records h (fetched rows ++ rest) exec_seq w =
      let '(uiResult, exec_seq1, w1) := evaluate_records h (fetched rows) exec_seq w in
      if negb (uiResult =? ERROR_SUCCESS) then (uiResult, exec_seq1, w1)
      else evaluate_records h rest exec_seq1 w1.
Proof.
  induction rows as [|hRecord rows IH]; intros exec_seq w; [reflexivity|].
  cbn. destruct (evaluate_record h hRecord exec_seq w) as [[uiResult exec_seq1] w1].
  destruct (Z.eqb_spec uiResult ERROR_SUCCESS) as [->|Hne]; cbn [negb].
  - apply IH.
  - apply Z.eqb_neq in Hne. by rewrite Hne.
Qed.

Lemma evaluate_record_frame h hRecord exec_seq w :
  let w' := (evaluate_record h hRecord exec_seq w).2 in
  files w' = files w ∧ properties w' = properties w ∧ trace w' = trace w.
Proof.
  unfold evaluate_record, add_interface_ticks.
  destruct (rec_Component hRecord) as [u1 szComponent].
  destruct (negb (u1 =? _)); [done|].
  destruct (h_MsiGetComponentState h szComponent) as [[u2 iInstalled] iAction].
  destruct (negb (u2 =? _)); [done|].
  destruct (rec_DisplayName hRecord) as [u3 szDisplayName].
  destruct (negb (u3 =? _)); [done|].
  destruct (iAction >? _); [|done].
  destruct (iAction >=? _).
  - destruct (rec_Condition hRecord) as [u4 szValue].
    destruct (negb (u4 =? _)); [done|].
    destruct (MsiEvaluateCondition h szValue); try done.
    all: by destruct (_ =? IDCANCEL).
  - by destruct (_ =? IDCANCEL).
Qed.

Lemma evaluate_records_frame h view :
  ∀ exec_seq w,
    let w' := (evaluate_records h view exec_seq w).2 in
    files w' = files w ∧ properties w' = properties w ∧ trace w' = trace w.
Proof.
  induction view as [|[uiFetch hRecord] view IH]; intros exec_seq w; [done|].
  cbn. destruct (uiFetch =? ERROR_NO_MORE_ITEMS); [done|].
  destruct (negb (uiFetch =? _)); [done|].
  pose proof (evaluate_record_frame h hRecord exec_seq w) as Hrec.
  destruct (evaluate_record h hRecord exec_seq w) as [[uiResult exec_seq1] w1].
  cbn in Hrec. destruct Hrec as (Hf & Hp & Ht).
  destruct (negb (uiResult =? _)); [done|].
  specialize (IH exec_seq1 w1). cbn in IH. destruct IH as (Hf' & Hp' & Ht').
  cbn. by rewrite Hf', Hp', Ht'.
Qed.

Lemma record_read_true h hRecord :
  record_read h hRecord = true →
  ∃ szComponent iInstalled iAction szDisplayName,
    rec_Component hRecord = (ERROR_SUCCESS, szComponent) ∧
    h_MsiGetComponentState h szComponent = (ERROR_SUCCESS, iInstalled, iAction) ∧
    rec_DisplayName hRecord = (ERROR_SUCCESS, szDisplayName).
Proof.
  unfold record_read.
  destruct (rec_Component hRecord) as [u1 szComponent]. cbn [fst snd].
  destruct (h_MsiGetComponentState h szComponent) as [[u2 iInstalled] iAction] eqn:HS.
  cbn [fst snd].
  destruct (rec_DisplayName hRecord) as [u3 szDisplayName]. cbn [fst snd].
  intros Hread. repeat (apply andb_prop in Hread as [Hread ?]).
  repeat match goal with H : (_ =? _) = true |- _ => apply Z.eqb_eq in H; subst end.
  by eexists _, _, _, _.
Qed.

Lemma evaluate_record_condition_error h hRecord exec_seq w :
  condition_evaluated h hRecord = true →
  MsiEvaluateCondition h (record_condition hRecord) = MSICONDITION_ERROR →
  evaluate_record h hRecord exec_seq w = (ERROR_INVALID_FIELD, exec_seq, w).
Proof.
  unfold condition_evaluated, going_to_be_present, record_action, record_condition.
  intros Hcond Herr.
  apply andb_prop in Hcond as [Hcond Hu4]. apply andb_prop in Hcond as [Hread Hge].
  destruct (record_read_true _ _ Hread)
    as (szComponent & iInstalled & iAction & szDisplayName & HC & HS & HN).
  unfold evaluate_record. rewrite HC in *. cbn [fst snd] in *. rewrite HS in *.
  cbn [fst snd] in *. rewrite HN.
  success_branch.
  rewrite Hge.
  assert ((iAction >? INSTALLSTATE_BROKEN) = true) as ->.
  { unfold INSTALLSTATE_BROKEN, INSTALLSTATE_LOCAL in *. lia. }
  destruct (rec_Condition hRecord) as [u4 szValue]. cbn [fst snd] in *.
  rewrite Hu4. cbn [negb]. by rewrite Herr.
Qed.

Lemma evaluate_record_cancel h hRecord exec_seq w :
  qualifies h hRecord = true →
  h_progress h (progress_messages w) = IDCANCEL →
  ∃ exec_seq',
    evaluate_record h hRecord exec_seq w
      = (ERROR_INSTALL_USEREXIT, exec_seq', add_progress MSICA_INTERFACE_TICK_SIZE w).
Proof.
  unfold qualifies, condition_evaluated, going_to_be_present, going_to_be_removed,
    condition_true, record_action, record_condition.
  intros Hq Hcancel. apply andb_prop in Hq as [Hread Hq].
  destruct (record_read_true _ _ Hread)
    as (szComponent & iInstalled & iAction & szDisplayName & HC & HS & HN).
  unfold evaluate_record, add_interface_ticks.
  rewrite HC in *. cbn [fst snd] in *. rewrite HS in *. cbn [fst snd] in *. rewrite HN.
  success_branch.
  rewrite Hcancel. change (IDCANCEL =? IDCANCEL) with true. cbv iota.
  unfold INSTALLSTATE_BROKEN, INSTALLSTATE_LOCAL in *.
  apply orb_prop in Hq as [Hq|Hq].
  - apply andb_prop in Hq as [H0 H3].
    assert ((iAction >? 0) = true) as -> by lia.
    assert ((iAction >=? 3) = false) as -> by lia.
    by eexists.
  - apply andb_prop in Hq as [Hq Htrue].
    apply andb_prop in Hq as [Hq Hu4]. apply andb_prop in Hq as [_ Hge].
    rewrite Hge.
    assert ((iAction >? 0) = true) as -> by lia.
    destruct (rec_Condition hRecord) as [u4 szValue]. cbn [fst snd] in *.
    rewrite Hu4. cbn [negb].
    destruct (MsiEvaluateCondition h szValue); try discriminate; by eexists.
Qed.

(** C8: when the planner evaluates the condition of a row and the
    evaluation fails, the fetch loop stops with [ERROR_INVALID_FIELD], the
    sequences and the progress total are as the rows before left them,
    whatever rows follow, and [EvaluateTAPInterfaces] returns
    [ERROR_INVALID_FIELD], which is none of the success, generic failure
    and user exit codes; no file was written. *)
Theorem C8_condition_error_aborts_planning
    (h : host) (rows : list msi_record) (hRecord : msi_record)
    (rest : list (UINT * msi_record)) (exec_seq : msica_op_seq * msica_op_seq)
    (w w1 : world) :
  fetch_loop_reached h = true →
  h_view h = fetched rows ++ (ERROR_SUCCESS, hRecord) :: rest →
  evaluate_records h (fetched rows) (exec_seq_init h) w = (ERROR_SUCCESS, exec_seq, w1) →
  condition_evaluated h hRecord = true →
  MsiEvaluateCondition h (record_condition hRecord) = MSICONDITION_ERROR →
  evaluate_records h (h_view h) (exec_seq_init h) w = (ERROR_INVALID_FIELD, exec_seq, w1) ∧
  EvaluateTAPInterfaces h w = (ERROR_INVALID_FIELD, w1) ∧
  files w1 = files w ∧
  ERROR_INVALID_FIELD ≠ ERROR_SUCCESS ∧
  ERROR_INVALID_FIELD ≠ ERROR_GEN_FAILURE ∧
  ERROR_INVALID_FIELD ≠ ERROR_INSTALL_FAILURE ∧
  ERROR_INVALID_FIELD ≠ ERROR_INSTALL_USEREXIT.
Proof.
  intros Hreach Hview Hrows Hcond Herr.
  assert (evaluate_records h (h_view h) (exec_seq_init h) w
          = (ERROR_INVALID_FIELD, exec_seq, w1)) as Hloop.
  { rewrite Hview, evaluate_records_app, Hrows. cbn.
    by rewrite (evaluate_record_condition_error _ _ _ _ Hcond Herr). }
  split; [exact Hloop|]. split.
  - by rewrite (EvaluateTAPInterfaces_fetch_loop _ _ Hreach), Hloop.
  - split; [|done].
    pose proof (evaluate_records_frame h (fetched rows) (exec_seq_init h) w) as Hfr.
    rewrite Hrows in Hfr. apply Hfr.
Qed.

Lemma C8_condition_error_witness :
  let h := bad_condition_host in
  let before :=
    evaluate_records h (fetched [ example_record "A" "" "compA" ])
      (exec_seq_init h) empty_world in
  evaluate_records h (h_view h) (exec_seq_init h) empty_world
    = (ERROR_INVALID_FIELD, before.1.2, before.2) ∧
  EvaluateTAPInterfaces h empty_world = (ERROR_INVALID_FIELD, before.2) ∧
  files before.2 = files empty_world ∧
  ERROR_INVALID_FIELD ≠ ERROR_SUCCESS ∧
  ERROR_INVALID_FIELD ≠ ERROR_GEN_FAILURE ∧
  ERROR_INVALID_FIELD ≠ ERROR_INSTALL_FAILURE ∧
  ERROR_INVALID_FIELD ≠ ERROR_INSTALL_USEREXIT.
Proof.
  apply (C8_condition_error_aborts_planning bad_condition_host
           [ example_record "A" "" "compA" ] bad_condition_record
           (fetched [ example_record "B" "0" "compB" ]));
    vm_compute; reflexivity.
Defined.

(** C9: when the user cancels at the progress message of a qualifying
    row, [EvaluateTAPInterfaces] returns [ERROR_INSTALL_USEREXIT], which is
    none of the success and generic failure codes; the ticks of the row were
    added, no file was written. *)
Theorem C9_user_cancel_aborts_planning
    (h : host) (rows : list msi_record) (hRecord : msi_record)
    (rest : list (UINT * msi_record)) (exec_seq : msica_op_seq * msica_op_seq)
    (w w1 : world) :
  fetch_loop_reached h = true →
  h_view h = fetched rows ++ (ERROR_SUCCESS, hRecord) :: rest →
  evaluate_records h (fetched rows) (exec_seq_init h) w = (ERROR_SUCCESS, exec_seq, w1) →
  qualifies h hRecord = true →
  h_progress h (progress_messages w1) = IDCANCEL →
  EvaluateTAPInterfaces h w
    = (ERROR_INSTALL_USEREXIT, add_progress MSICA_INTERFACE_TICK_SIZE w1) ∧
  files w1 = files w ∧
  ERROR_INSTALL_USEREXIT ≠ ERROR_SUCCESS ∧
  ERROR_INSTALL_USEREXIT ≠ ERROR_GEN_FAILURE ∧
  ERROR_INSTALL_USEREXIT ≠ ERROR_INSTALL_FAILURE.
Proof.
  intros Hreach Hview Hrows Hq Hcancel.
  destruct (evaluate_record_cancel h hRecord exec_seq w1 Hq Hcancel) as [exec_seq' Hrec].
  split.
  - rewrite (EvaluateTAPInterfaces_fetch_loop _ _ Hreach).
    rewrite Hview, evaluate_records_app, Hrows. cbn. by rewrite Hrec.
  - split; [|done].
    pose proof (evaluate_records_frame h (fetched rows) (exec_seq_init h) w) as Hfr.
    rewrite Hrows in Hfr. apply Hfr.
Qed.

Lemma C9_user_cancel_witness :
  let h := cancelling_host in
  let before :=
    evaluate_records h (fetched [ example_record "A" "" "compA" ])
      (exec_seq_init h) empty_world in
  EvaluateTAPInterfaces h empty_world
    = (ERROR_INSTALL_USEREXIT, add_progress MSICA_INTERFACE_TICK_SIZE before.2) ∧
  files before.2 = files empty_world ∧
  ERROR_INSTALL_USEREXIT ≠ ERROR_SUCCESS ∧
  ERROR_INSTALL_USEREXIT ≠ ERROR_GEN_FAILURE ∧
  ERROR_INSTALL_USEREXIT ≠ ERROR_INSTALL_FAILURE.
Proof.
  apply (C9_user_cancel_aborts_planning cancelling_host
           [ example_record "A" "" "compA" ] (example_record "B" "0" "compB") []
           (evaluate_records cancelling_host (fetched [ example_record "A" "" "compA" ])
              (exec_seq_init cancelling_host) empty_world).1.2);
    vm_compute; reflexivity.
Defined.

(** *** Writing the sequence files *)

Lemma temp_file_name_not_empty (szPath szUnique : string) :
  szPath +:+ szUnique +:+ ".tmp" ≠ "".
Proof. destruct szPath; [destruct szUnique|]; discriminate. Qed.

Lemma setup_cleanup_properties_files h szProperty szFilename indices :
  ∀ w, files (setup_cleanup_properties h szProperty szFilename indices w).2 = files w.
Proof.
  induction indices as [|i rest IH]; intros w; cbn; [done|].
  destruct (negb (_ =? _)); [done|]. by rewrite IH.
Qed.

Lemma GetTempFileName_spec h szPath szPrefix w :
  let result := GetTempFileName h szPath szPrefix w in
  (result.1.1 ≠ ERROR_SUCCESS ∧ result.2 = w) ∨
  (result.1.1 = ERROR_SUCCESS ∧ result.1.2 ≠ "" ∧
   result.2 = set_files (insert result.1.2 (file_seq [])) w).
Proof.
  unfold GetTempFileName.
  destruct (h_GetTempFileName h szPath szPrefix) as [e szUnique].
  destruct (Z.eqb_spec e ERROR_SUCCESS) as [->|Hne]; cbn.
  - right. repeat split. apply temp_file_name_not_empty.
  - by left.
Qed.

(** Setting up a sequence filename touches at most the file it names,
    and names a file whenever it succeeds. *)
Lemma setup_sequence_filename_files h szProperty szOld w :
  let result := openvpnmsica_setup_sequence_filename h szProperty szOld w in
  (result.1.1 = ERROR_SUCCESS → result.1.2 ≠ "") ∧
  (files result.2 = files w ∨
   (result.1.2 ≠ "" ∧ files result.2 = <[result.1.2 := file_seq []]> (files w))).
Proof.
  unfold openvpnmsica_setup_sequence_filename.
  destruct (h_GetTempPath h) as [e1 szTempPath].
  destruct (Z.eqb_spec e1 ERROR_SUCCESS) as [->|Hne1]; cbn [negb].
  2:{ cbn. split; [intros He; exfalso; exact (Hne1 He)|by left]. }
  pose proof (GetTempFileName_spec h szTempPath szProperty w) as Htemp.
  destruct (GetTempFileName h szTempPath szProperty w) as [[e2 szFilename] w1].
  cbn in Htemp. destruct Htemp as [[Hne2 ->]|(-> & Hname & ->)].
  { apply Z.eqb_neq in Hne2. rewrite Hne2. cbn. apply Z.eqb_neq in Hne2.
    split; [intros He; exfalso; exact (Hne2 He)|by left]. }
  success_branch.
  destruct (negb (h_MsiSetProperty h szProperty =? _)); [cbn; split; [done|by right]|].
  pose proof (setup_cleanup_properties_files h szProperty szFilename cleanup_action_indices
                (set_property szProperty szFilename
                   (set_files (insert szFilename (file_seq [])) w)))
    as Hfiles.
  destruct (setup_cleanup_properties _ _ _ _ _) as [dwResult w'].
  cbn in Hfiles |- *. split; [done|]. right. by split.
Qed.

(** A file differs from what it was before the write loop only if its
    name is in the array of sequence filenames, at an index the loop went
    through. *)
Lemma write_sequence_files_footprint h exec_seq indices :
  ∀ (names : list string) w uiResult names' w',
    NoDup indices →
    Forall (λ i, i < List.length names)%nat indices →
    write_sequence_files h indices exec_seq names w = (uiResult, names', w') →
    List.length names' = List.length names ∧
    (∀ j, j ∉ indices → names' !! j = names !! j) ∧
    (∀ p, files w' !! p = files w !! p ∨
          (p ≠ "" ∧ ∃ i, i ∈ indices ∧ names' !! i = Some p)).
Proof.
  induction indices as [|i rest IH]; intros names w uiResult names' w' Hnd Hlt; cbn.
  { intros [= <- <- <-]. split; [done|]. split; [done|]. intros p. by left. }
  apply NoDup_cons in Hnd as [Hi Hnd]. apply Forall_cons in Hlt as [Hilt Hlt].
  pose proof (setup_sequence_filename_files h (nth i szActionNames "") (nth i names "") w)
    as Hsetup.
  destruct (openvpnmsica_setup_sequence_filename _ _ _ _) as [[u1 szFilename] w1].
  cbn in Hsetup. destruct Hsetup as [Hname Hw1].
  set (names1 := <[i := szFilename]> names).
  assert (Hlen1 : List.length names1 = List.length names) by apply length_insert.
  assert (Hframe1 : ∀ j, j ∉ i :: rest → names1 !! j = names !! j).
  { intros j Hj. apply list_lookup_insert_ne. intros ->. apply Hj. by left. }
  assert (Hat : names1 !! i = Some szFilename) by by apply list_lookup_insert_eq.
  (* what one pass of the loop body may have done to the files *)
  set (touched := λ wx : world,
         files wx = files w ∨
         (szFilename ≠ "" ∧ ∃ d, files wx = <[szFilename := d]> (files w))).
  assert (Hstep : ∀ wx, touched wx →
            ∀ p, files wx !! p = files w !! p ∨ (p ≠ "" ∧ p = szFilename)).
  { intros wx [Heq|[Hne [d Heq]]] p; rewrite Heq; [by left|].
    destruct (decide (szFilename = p)) as [<-|Hp]; [by right|].
    left. by apply lookup_insert_ne. }
  assert (Hover : ∀ wx d, szFilename ≠ "" → touched wx →
            touched (set_files (insert szFilename d) wx)).
  { intros wx d Hne [Heq|[_ [d0 Heq]]]; right; (split; [done|]); exists d; cbn; rewrite Heq;
      [done|]. apply insert_insert_eq. }
  assert (Hw1' : touched w1).
  { destruct Hw1 as [?|[? ?]]; [by left|right; eauto]. }
  assert (Hdone : ∀ wx, touched wx →
            ∀ p, files wx !! p = files w !! p ∨
                 (p ≠ "" ∧ ∃ j, j ∈ i :: rest ∧ names1 !! j = Some p)).
  { intros wx Hwx p. destruct (Hstep wx Hwx p) as [?|[? ->]]; [by left|].
    right. split; [done|]. exists i. split; [by left|done]. }
  destruct (Z.eqb_spec u1 ERROR_SUCCESS) as [->|Hu1]; cbn [negb].
  2:{ intros [= <- <- <-]. repeat split; [done|done|]. by apply Hdone. }
  specialize (Hname eq_refl).
  unfold CreateFile_CREATE_ALWAYS.
  destruct (h_create_error h szFilename =? ERROR_SUCCESS).
  2:{ intros [= <- <- <-]. repeat split; [done|done|]. by apply Hdone. }
  cbn. destruct (h_save_error h szFilename =? ERROR_SUCCESS) eqn:Hsave;
    cbn; rewrite ?Hsave; cbn.
  2:{ intros [= <- <- <-]. repeat split; [done|done|].
      apply Hdone.
      exact (Hover _ (file_damaged (h_save_error h szFilename)) Hname
               (Hover w1 (file_seq []) Hname Hw1')). }
  intros Hrest. fold names1 in Hrest.
  apply IH in Hrest as (Hlen & Hframe & Hfoot); [|done|by rewrite Hlen1].
  split; [congruence|]. split.
  { intros j Hj. rewrite Hframe; [by apply Hframe1|]. intros ?. apply Hj. by right. }
  intros p. destruct (Hfoot p) as [Heq|[Hne [j [Hj Hnj]]]].
  - rewrite Heq.
    destruct (Hstep _ (Hover _ (file_seq (exec_seq_at exec_seq i)) Hname
                         (Hover _ (file_seq []) Hname Hw1')) p) as [?|[? ->]]; [by left|].
    right. split; [done|]. exists i. split; [by left|]. by rewrite Hframe.
  - right. split; [done|]. exists j. split; [by right|done].
Qed.

Lemma delete_if_named_lookup w szFilename p :
  files (delete_if_named w szFilename) !! p = None ∨
  files (delete_if_named w szFilename) !! p = files w !! p.
Proof.
  destruct szFilename as [|c s]; [by right|]. cbn.
  destruct (decide (String c s = p)) as [<-|Hne].
  - left. apply lookup_delete_eq.
  - right. by apply lookup_delete_ne.
Qed.

Lemma foldl_delete_if_named_lookup names :
  ∀ w p, files (foldl delete_if_named w names) !! p = None ∨
         files (foldl delete_if_named w names) !! p = files w !! p.
Proof.
  induction names as [|x names IH]; intros w p; [by right|]. cbn.
  destruct (IH (delete_if_named w x) p) as [?| ->]; [by left|].
  apply delete_if_named_lookup.
Qed.

Lemma foldl_delete_if_named_gone names :
  ∀ w p, p ∈ names → p ≠ "" → files (foldl delete_if_named w names) !! p = None.
Proof.
  induction names as [|x names IH]; intros w p Hin Hne; [by apply elem_of_nil in Hin|].
  cbn. apply elem_of_cons in Hin as [->|Hin]; [|by apply IH].
  destruct (foldl_delete_if_named_lookup names (delete_if_named w x) x) as [?| ->]; [done|].
  destruct x as [|c s]; [done|]. cbn. apply lookup_delete_eq.
Qed.

Lemma delete_sequence_files_eq names w :
  delete_sequence_files names w = foldl delete_if_named w (reverse names).
Proof. reflexivity. Qed.

(** C7: when writing the sequence files ends with an error (the setup of a
    filename and its properties, the creation of a file or the save into
    it failed), [EvaluateTAPInterfaces] returns that error, none of the
    files named in this call exists afterwards, and every path either does
    not exist or holds what it held before the call. *)
Theorem C7_failed_plan_leaves_no_sequence_file
    (h : host) (w : world) (exec_seq : msica_op_seq * msica_op_seq) (w0 : world)
    (uiResult : UINT) (szSeqFilename : list string) (w1 : world) :
  fetch_loop_reached h = true →
  evaluate_records h (h_view h) (exec_seq_init h) w = (ERROR_SUCCESS, exec_seq, w0) →
  write_sequence_files h action_indices exec_seq szSeqFilename_init w0
    = (uiResult, szSeqFilename, w1) →
  uiResult ≠ ERROR_SUCCESS →
  let '(uiReturned, w') := EvaluateTAPInterfaces h w in
  uiReturned = uiResult ∧
  (∀ szFilename, szFilename ∈ szSeqFilename → szFilename ≠ "" →
                 files w' !! szFilename = None) ∧
  (∀ p, files w' !! p = None ∨ files w' !! p = files w !! p).
Proof.
  intros Hreach Hrows Hwrite Hne.
  rewrite (EvaluateTAPInterfaces_fetch_loop _ _ Hreach), Hrows.
  success_branch.
  unfold save_exec_seq. fold szSeqFilename_init. fold action_indices. rewrite Hwrite.
  apply Z.eqb_neq in Hne. rewrite Hne. cbn [negb]. apply Z.eqb_neq in Hne.
  rewrite delete_sequence_files_eq.
  split; [done|]. split.
  - intros szFilename Hin Hname. apply foldl_delete_if_named_gone; [|done].
    by apply elem_of_reverse.
  - intros p.
    pose proof (evaluate_records_frame h (h_view h) (exec_seq_init h) w) as Hframe.
    rewrite Hrows in Hframe. cbn in Hframe. destruct Hframe as [Hfiles _].
    apply write_sequence_files_footprint in Hwrite as (_ & _ & Hfoot).
    + destruct (Hfoot p) as [Heq|[Hp [i [_ Hi]]]].
      * destruct (foldl_delete_if_named_lookup (reverse szSeqFilename) w1 p) as [?|Hsame];
          [by left|]. right. by rewrite Hsame, Heq, Hfiles.
      * left. apply foldl_delete_if_named_gone; [|done].
        apply elem_of_reverse. by eapply list_elem_of_lookup_2.
    + apply NoDup_seq.
    + apply Forall_forall. intros i Hi. apply elem_of_seq in Hi. cbn in *. lia.
Qed.

Lemma C7_failed_plan_witness :
  let '(uiReturned, w') := EvaluateTAPInterfaces failing_persist_host empty_world in
  uiReturned = 5 ∧
  (∀ szFilename, szFilename ∈ [ "C:\Temp\Ins1.tmp"; "C:\Temp\Uni1.tmp" ] →
                 szFilename ≠ "" → files w' !! szFilename = None) ∧
  (∀ p, files w' !! p = None ∨ files w' !! p = files empty_world !! p).
Proof.
  apply (C7_failed_plan_leaves_no_sequence_file failing_persist_host empty_world
           (evaluate_records failing_persist_host (h_view failing_persist_host)
              (exec_seq_init failing_persist_host) empty_world).1.2
           (evaluate_records failing_persist_host (h_view failing_persist_host)
              (exec_seq_init failing_persist_host) empty_world).2
           5 [ "C:\Temp\Ins1.tmp"; "C:\Temp\Uni1.tmp" ]
           (write_sequence_files failing_persist_host action_indices
              (evaluate_records failing_persist_host (h_view failing_persist_host)
                 (exec_seq_init failing_persist_host) empty_world).1.2
              szSeqFilename_init
              (evaluate_records failing_persist_host (h_view failing_persist_host)
                 (exec_seq_init failing_persist_host) empty_world).2).2);
    vm_compute; first [reflexivity | discriminate].
Defined.

(** In the example the install sequence file was written before the
    uninstall one failed. *)
Example failing_persist_wrote_install_file :
  let exec_seq := (evaluate_records failing_persist_host (h_view failing_persist_host)
                     (exec_seq_init failing_persist_host) empty_world).1.2 in
  files (write_sequence_files failing_persist_host action_indices exec_seq
           szSeqFilename_init empty_world).2 !! "C:\Temp\Ins1.tmp"
    = Some (file_seq exec_seq.1).
Proof. vm_compute. reflexivity. Qed.

(** *** The cleanup sequence filenames *)

(** C2 (amended): the commit and rollback cleanup filenames are the base
    filename with a dash and the two-character suffix, [-cm] and [-rb],
    inserted before its extension (at its end when it has none), and the
    planning side and the deferred side derive the same names from the same
    base filename. *)
Theorem C2_cleanup_filenames_insert_dash_and_suffix (szFilename : string) :
  let stem := string_take (PathFindExtension szFilename) szFilename in
  let extension := string_drop (PathFindExtension szFilename) szFilename in
  szFilename = stem +:+ extension ∧
  (extension = "" ∨ ∃ e, extension = String "." e) ∧
  setup_filename_ex szFilename MSICA_CLEANUP_ACTION_COMMIT = stem +:+ "-cm" +:+ extension ∧
  setup_filename_ex szFilename MSICA_CLEANUP_ACTION_ROLLBACK = stem +:+ "-rb" +:+ extension ∧
  (∀ i, deferred_filename_ex szFilename i = setup_filename_ex szFilename i).
Proof.
  cbv zeta. split; [by rewrite string_take_drop|].
  split; [apply PathFindExtension_spec|].
  repeat split.
Qed.

(** The claim as stated fails: the derived name is not the base name with
    the two-character suffix alone inserted before the extension. *)
Lemma C2_suffix_alone_counterexample :
  spec_derived_filename "C:\Temp\Ins1.tmp" "cm" = "C:\Temp\Ins1cm.tmp" ∧
  setup_filename_ex "C:\Temp\Ins1.tmp" MSICA_CLEANUP_ACTION_COMMIT = "C:\Temp\Ins1-cm.tmp" ∧
  deferred_filename_ex "C:\Temp\Ins1.tmp" MSICA_CLEANUP_ACTION_COMMIT = "C:\Temp\Ins1-cm.tmp" ∧
  setup_filename_ex "C:\Temp\Ins1.tmp" MSICA_CLEANUP_ACTION_COMMIT
    ≠ spec_derived_filename "C:\Temp\Ins1.tmp"
        (szSuffix (cleanup_action MSICA_CLEANUP_ACTION_COMMIT)).
Proof. repeat split. discriminate. Qed.

Lemma string_app_empty_r (s : string) : s +:+ "" = s.
Proof.
  induction s as [|c s IH]; [done|].
  change (String c (s +:+ "") = String c s). by rewrite IH.
Qed.

Lemma property_name_ne (szProperty : string) (i : nat) :
  (i < MSICA_CLEANUP_ACTION_COUNT)%nat →
  szProperty ≠ szProperty +:+ szName (cleanup_action i).
Proof.
  intros Hi Heq. rewrite <- (string_app_empty_r szProperty) in Heq at 1.
  apply String.app_inj in Heq.
  destruct i as [|[|i]]; [discriminate|discriminate|cbv in Hi; lia].
Qed.

(** What the planning side publishes: on success the property of the
    action holds the sequence filename, and the Commit and Rollback
    properties hold the very names the deferred action derives from it. *)
Lemma setup_sequence_filename_properties h szProperty szOld w szFilename w' :
  openvpnmsica_setup_sequence_filename h szProperty szOld w = (ERROR_SUCCESS, szFilename, w') →
  properties w' !! szProperty = Some szFilename ∧
  properties w' !! (szProperty +:+ "Commit")
    = Some (deferred_filename_ex szFilename MSICA_CLEANUP_ACTION_COMMIT) ∧
  properties w' !! (szProperty +:+ "Rollback")
    = Some (deferred_filename_ex szFilename MSICA_CLEANUP_ACTION_ROLLBACK).
Proof.
  unfold openvpnmsica_setup_sequence_filename.
  destruct (h_GetTempPath h) as [e1 szTempPath].
  destruct (Z.eqb_spec e1 ERROR_SUCCESS) as [->|Hne1]; cbn [negb]; [|congruence].
  destruct (GetTempFileName h szTempPath szProperty w) as [[e2 szTemp] w1].
  destruct (Z.eqb_spec e2 ERROR_SUCCESS) as [->|Hne2]; cbn [negb]; [|congruence].
  destruct (Z.eqb_spec (h_MsiSetProperty h szProperty) ERROR_SUCCESS) as [_|Hne3];
    cbn [negb]; [|congruence].
  unfold cleanup_action_indices. cbn [seq MSICA_CLEANUP_ACTION_COUNT setup_cleanup_properties].
  change (szName (cleanup_action 0)) with "Commit".
  change (szName (cleanup_action 1)) with "Rollback".
  destruct (Z.eqb_spec (h_MsiSetProperty h (szProperty +:+ "Commit")) ERROR_SUCCESS)
    as [_|Hne4]; cbn [negb]; [|congruence].
  destruct (Z.eqb_spec (h_MsiSetProperty h (szProperty +:+ "Rollback")) ERROR_SUCCESS)
    as [_|Hne5]; cbn [negb]; [|congruence].
  intros [= <- <-]. cbn [properties set_property].
  assert (szProperty +:+ "Rollback" ≠ szProperty +:+ "Commit") as Hrc.
  { intros Heq. by apply String.app_inj in Heq. }
  pose proof (property_name_ne szProperty 0 ltac:(cbv; lia)) as Hc.
  pose proof (property_name_ne szProperty 1 ltac:(cbv; lia)) as Hr.
  change (szName (cleanup_action 0)) with "Commit" in Hc.
  change (szName (cleanup_action 1)) with "Rollback" in Hr.
  repeat split.
  - rewrite lookup_insert_ne by done. rewrite lookup_insert_ne by done.
    apply lookup_insert_eq.
  - rewrite lookup_insert_ne by done. apply lookup_insert_eq.
  - apply lookup_insert_eq.
Qed.

(** *** Examples of the filename derivation *)

Example setup_filename_ex_commit :
  setup_filename_ex "C:\Temp\Ins1A2B.tmp" 0 = "C:\Temp\Ins1A2B-cm.tmp".
Proof. reflexivity. Qed.

Example deferred_filename_ex_rollback :
  deferred_filename_ex "C:\Temp\Ins1A2B.tmp" 1 = "C:\Temp\Ins1A2B-rb.tmp".
Proof. reflexivity. Qed.

Example PathFindExtension_dir_dot :
  PathFindExtension "C:\a.b\seq" = 10%nat.
Proof. reflexivity. Qed.

(** * Further properties *)

(** ** FindTAPInterfaces *)

Lemma string_length_app (s1 s2 : string) :
  String.length (s1 +:+ s2) = (String.length s1 + String.length s2)%nat.
Proof.
  induction s1 as [|c s1 IH]; [done|].
  change (S (String.length (s1 +:+ s2)) = S (String.length s1 + String.length s2)).
  by rewrite IH.
Qed.

Lemma hex_fixed_length (n : nat) (z : Z) : String.length (hex_fixed n z) = n.
Proof. induction n as [|n IH]; [done|]. cbn. by rewrite IH. Qed.

Lemma StringFromIID_length (g : GUID) : String.length (StringFromIID g) = 38%nat.
Proof.
  unfold StringFromIID. rewrite !string_length_app, !hex_fixed_length. reflexivity.
Qed.

Lemma string_take_all (n : nat) (s : string) :
  (String.length s ≤ n)%nat → string_take n s = s.
Proof.
  revert n; induction s as [|c s IH]; intros [|n] Hle; cbn in *; try done; try lia.
  rewrite IH; [done|lia].
Qed.

Lemma string_take_app (s1 s2 : string) :
  string_take (String.length s1) (s1 +:+ s2) = s1.
Proof.
  induction s1 as [|c s1 IH]; [done|].
  change (String c (string_take (String.length s1) (s1 +:+ s2)) = String c s1).
  by rewrite IH.
Qed.

Lemma string_drop_app (s1 s2 : string) :
  string_drop (String.length s1) (s1 +:+ s2) = s2.
Proof. induction s1 as [|c s1 IH]; [done|]. exact IH. Qed.

Lemma string_drop_add (n m : nat) (s : string) :
  string_drop (n + m) s = string_drop m (string_drop n s).
Proof.
  revert s; induction n as [|n IH]; intros s; [done|].
  destruct s as [|c s]; cbn; [by destruct m|]. apply IH.
Qed.

Lemma take_interface_id (g : GUID) : string_take 38 (StringFromIID g) = StringFromIID g.
Proof. apply string_take_all. by rewrite StringFromIID_length. Qed.

Lemma enumerate_interfaces_spec ID pInterfaceList :
  ∀ messages interfaces interface_count,
    enumerate_interfaces ID pInterfaceList messages interfaces interface_count =
      (messages ++ interface_ids (tap_interfaces ID pInterfaceList),
       interfaces ++ tap_interfaces ID pInterfaceList,
       (interface_count + List.length (tap_interfaces ID pInterfaceList))%nat).
Proof.
  induction pInterfaceList as [|pInterface pNext IH]; intros messages interfaces n; cbn.
  - by rewrite !app_nil_r, Nat.add_0_r.
  - destruct (is_tap_interface ID (szzHardwareIDs pInterface)); [|apply IH].
    rewrite IH. cbn. by rewrite <- !app_assoc, Nat.add_succ_r.
Qed.

Lemma write_interface_ids_concat interfaces :
  write_interface_ids interfaces = String.concat ";" (interface_ids interfaces).
Proof.
  induction interfaces as [|iface next IH]; [done|].
  cbn [write_interface_ids interface_ids map String.concat].
  rewrite take_interface_id. destruct next as [|iface' next]; [|by rewrite IH].
  cbn. apply string_app_empty_r.
Qed.

Lemma write_interface_ids_length interfaces :
  interfaces ≠ [] →
  (String.length (write_interface_ids interfaces) + 1 = List.length interfaces * (38 + 1))%nat.
Proof.
  induction interfaces as [|iface next IH]; [done|]. intros _.
  cbn [write_interface_ids]. rewrite take_interface_id, string_length_app, StringFromIID_length.
  destruct next as [|iface' next]; [reflexivity|].
  cbn [String.length List.length] in *. specialize (IH ltac:(done)). lia.
Qed.

Lemma lower_cons (c : ascii) (s : string) : lower (String c s) = String (totlower c) (lower s).
Proof. reflexivity. Qed.

Lemma tcsicmp_zero (s1 : string) :
  ∀ s2, tcsicmp s1 s2 = 0 ↔ lower s1 = lower s2.
Proof.
  induction s1 as [|c1 s1 IH]; intros [|c2 s2]; cbn [tcsicmp]; rewrite ?lower_cons;
    try (split; [done|discriminate]); [done|].
  destruct (decide (totlower c1 = totlower c2)) as [Heq|Hne].
  - rewrite IH, Heq. split; [by intros ->|by intros [= ->]].
  - split; [by destruct (_ <? _)%nat|]. intros [= ? _]. done.
Qed.

Lemma is_tap_hardware_id_test (ID hwid : string) :
  (tcsicmp hwid ID =? 0) || (tcsicmp hwid ("root\" +:+ ID) =? 0) = true
  ↔ is_tap_hardware_id ID hwid.
Proof.
  unfold is_tap_hardware_id. rewrite orb_true_iff, !Z.eqb_eq, !tcsicmp_zero. done.
Qed.

(** X5: an interface counts as a TAP interface exactly when one of its
    hardware ids, read up to the first empty string, is the component id or
    the component id under [root\], letter case aside. *)
Theorem X5_tap_interface_by_hardware_id (ID : string) (szz : list string) :
  is_tap_interface ID szz = true ↔
  ∃ (k : nat) (hwid : string),
    szz !! k = Some hwid ∧
    (∀ j hw, (j ≤ k)%nat → szz !! j = Some hw → hw ≠ "") ∧
    is_tap_hardware_id ID hwid.
Proof.
  induction szz as [|hwid rest IH]; cbn [is_tap_interface].
  { split; [done|]. by intros (k & hw & Hk & _). }
  destruct hwid as [|c s].
  { split; [done|]. intros (k & hw & _ & Hne & _).
    exfalso. by apply (Hne 0%nat ""); [lia| |]. }
  destruct ((tcsicmp (String c s) ID =? 0) || (tcsicmp (String c s) ("root\" +:+ ID) =? 0))
    eqn:Htest.
  - split; [|done]. intros _. exists 0%nat, (String c s). split; [done|]. split.
    + intros j hw Hj Hlook. assert (j = 0%nat) as -> by lia. by injection Hlook as <-.
    + by apply is_tap_hardware_id_test.
  - rewrite IH. split.
    + intros (k & hw & Hk & Hne & Hid). exists (S k), hw. split; [done|]. split; [|done].
      intros [|j] hw' Hj Hlook; [by injection Hlook as <-|].
      apply (Hne j); [lia|done].
    + intros (k & hw & Hk & Hne & Hid). destruct k as [|k].
      * injection Hk as <-. apply is_tap_hardware_id_test in Hid. congruence.
      * exists k, hw. split; [done|]. split; [|done].
        intros j hw' Hj Hlook. apply (Hne (S j)); [lia|done].
Qed.

(** X1: when the discovery succeeds and there is a TAP interface,
    [FindTAPInterfaces] reports the id of every TAP interface to the
    installer, in the order of the list and once each, and returns what
    setting the TAPINTERFACES property returned; when that succeeded the
    property holds the ids joined by semicolons and nothing else of the
    world changed, and when it failed the world is as before. *)
Theorem X1_FindTAPInterfaces_lists_tap_interfaces
    (ID : string) (pInterfaceList : list tap_interface_node) (hInstall : host) (w : world) :
  tap_interfaces ID pInterfaceList ≠ [] →
  let ids := interface_ids (tap_interfaces ID pInterfaceList) in
  let '(uiResult, messages, w') :=
    FindTAPInterfaces ID (ERROR_SUCCESS, pInterfaceList) hInstall w in
  uiResult = h_MsiSetProperty hInstall "TAPINTERFACES" ∧
  messages = ids ∧
  (uiResult = ERROR_SUCCESS → w' = set_property "TAPINTERFACES" (String.concat ";" ids) w) ∧
  (uiResult ≠ ERROR_SUCCESS → w' = w).
Proof.
  intros Hne. unfold FindTAPInterfaces. success_branch.
  rewrite enumerate_interfaces_spec. cbn [app Nat.add].
  destruct (tap_interfaces ID pInterfaceList) as [|iface next] eqn:Htaps; [done|].
  cbn [List.length]. rewrite write_interface_ids_concat. unfold MsiSetProperty.
  destruct (Z.eqb_spec (h_MsiSetProperty hInstall "TAPINTERFACES") ERROR_SUCCESS)
    as [Heq|Hfail]; cbn [negb].
  - rewrite Heq. by repeat split.
  - by repeat split.
Qed.

Lemma X1_FindTAPInterfaces_witness :
  let ids := interface_ids (tap_interfaces "tap0901" [ example_nic; example_tap; example_tap2 ]) in
  let '(uiResult, messages, w') :=
    FindTAPInterfaces "tap0901" (ERROR_SUCCESS, [ example_nic; example_tap; example_tap2 ])
      commit_host empty_world in
  uiResult = h_MsiSetProperty commit_host "TAPINTERFACES" ∧
  messages = ids ∧
  (uiResult = ERROR_SUCCESS →
     w' = set_property "TAPINTERFACES" (String.concat ";" ids) empty_world) ∧
  (uiResult ≠ ERROR_SUCCESS → w' = empty_world).
Proof.
  apply (X1_FindTAPInterfaces_lists_tap_interfaces "tap0901"
           [ example_nic; example_tap; example_tap2 ] commit_host empty_world).
  vm_compute. discriminate.
Defined.

Example FindTAPInterfaces_example :
  (FindTAPInterfaces "tap0901" (ERROR_SUCCESS, [ example_nic; example_tap; example_tap2 ])
     commit_host empty_world).1
  = (ERROR_SUCCESS,
     [ "{1A2B3C4D-5E6F-0718-293A-4B5C6D7E8F90}"; "{00000001-0002-0003-0405-060708090A0B}" ]) ∧
  properties
    (FindTAPInterfaces "tap0901" (ERROR_SUCCESS, [ example_nic; example_tap; example_tap2 ])
       commit_host empty_world).2 !! "TAPINTERFACES"
  = Some "{1A2B3C4D-5E6F-0718-293A-4B5C6D7E8F90};{00000001-0002-0003-0405-060708090A0B}".
Proof. vm_compute. done. Qed.

(** X2: when the discovery fails, [FindTAPInterfaces] returns its error;
    when it succeeds and no interface is a TAP interface, it returns
    [ERROR_SUCCESS]; in both cases no message is sent and the world is as
    before: the TAPINTERFACES property is neither set nor cleared. *)
Theorem X2_FindTAPInterfaces_without_tap_interface
    (ID : string) (pInterfaceList : list tap_interface_node) (hInstall : host) (w : world) :
  (∀ uiResult, uiResult ≠ ERROR_SUCCESS →
     FindTAPInterfaces ID (uiResult, pInterfaceList) hInstall w = (uiResult, [], w)) ∧
  (tap_interfaces ID pInterfaceList = [] →
     FindTAPInterfaces ID (ERROR_SUCCESS, pInterfaceList) hInstall w = (ERROR_SUCCESS, [], w)).
Proof.
  split.
  - intros uiResult Hne. unfold FindTAPInterfaces.
    apply Z.eqb_neq in Hne. by rewrite Hne.
  - intros Hnone. unfold FindTAPInterfaces. success_branch.
    by rewrite enumerate_interfaces_spec, Hnone.
Qed.

(** X3: the list of ids fills the buffer allocated for it exactly: with
    its terminator it takes [interface_count * (38 + 1)] characters. *)
Theorem X3_interface_list_fills_its_buffer
    (ID : string) (pInterfaceList : list tap_interface_node) :
  tap_interfaces ID pInterfaceList ≠ [] →
  let found := enumerate_interfaces ID pInterfaceList [] [] 0 in
  (String.length (write_interface_ids found.1.2) + 1 = found.2 * (38 + 1))%nat.
Proof.
  intros Hne found. subst found. rewrite enumerate_interfaces_spec. cbn [fst snd app Nat.add].
  by apply write_interface_ids_length.
Qed.

Lemma X3_interface_list_witness :
  let found := enumerate_interfaces "tap0901" [ example_nic; example_tap; example_tap2 ] [] [] 0 in
  (String.length (write_interface_ids found.1.2) + 1 = found.2 * (38 + 1))%nat.
Proof.
  apply (X3_interface_list_fills_its_buffer "tap0901" [ example_nic; example_tap; example_tap2 ]).
  vm_compute. discriminate.
Defined.

(** X4: the id of the k-th interface can be read back from the list: it
    is the 38 characters at offset [39 * k]. *)
Theorem X4_interface_id_read_back
    (interfaces : list tap_interface_node) (k : nat) (iface : tap_interface_node) :
  interfaces !! k = Some iface →
  string_take 38 (string_drop (39 * k) (write_interface_ids interfaces))
    = StringFromIID (guid iface).
Proof.
  revert k; induction interfaces as [|first next IH]; intros k Hk; [done|].
  cbn [write_interface_ids]. rewrite take_interface_id.
  pose proof (StringFromIID_length (guid first)) as Hlen.
  destruct k as [|k].
  - injection Hk as <-. rewrite Nat.mul_0_r. cbn [string_drop].
    rewrite <- Hlen. apply string_take_app.
  - cbn [lookup list_lookup] in Hk.
    destruct next as [|second next]; [done|].
    replace (39 * S k)%nat with (38 + (1 + 39 * k))%nat by lia.
    rewrite string_drop_add, <- Hlen, string_drop_app, string_drop_add.
    cbn [string_drop]. by apply IH.
Qed.

Lemma X4_interface_id_witness :
  string_take 38 (string_drop (39 * 1) (write_interface_ids [ example_tap; example_tap2 ]))
    = StringFromIID (guid example_tap2).
Proof.
  apply (X4_interface_id_read_back [ example_tap; example_tap2 ] 1 example_tap2).
  reflexivity.
Defined.

(** ** The sequence files of one token *)

Lemma string_take_drop_length (n : nat) (s : string) :
  (String.length (string_take n s) + String.length (string_drop n s) = String.length s)%nat.
Proof. by rewrite <- string_length_app, string_take_drop. Qed.

Lemma deferred_filename_ex_unfold (s : string) (i : nat) :
  deferred_filename_ex s i =
    string_take (PathFindExtension s) s
    +:+ String "-" (string_take 2 (szSuffix (cleanup_action i))
                    +:+ string_drop (PathFindExtension s) s).
Proof. reflexivity. Qed.

Lemma deferred_filename_ex_length (s : string) (i : nat) :
  (i < MSICA_CLEANUP_ACTION_COUNT)%nat →
  String.length (deferred_filename_ex s i) = (String.length s + 3)%nat.
Proof.
  intros Hi. rewrite deferred_filename_ex_unfold, string_length_app.
  cbn [String.length]. rewrite string_length_app.
  pose proof (string_take_drop_length (PathFindExtension s) s).
  destruct i as [|[|i]]; [cbn; lia|cbn; lia|]. cbv in Hi. lia.
Qed.

Lemma deferred_filename_ex_ne_base (s : string) (i : nat) :
  (i < MSICA_CLEANUP_ACTION_COUNT)%nat → deferred_filename_ex s i ≠ s.
Proof.
  intros Hi Heq. apply (f_equal String.length) in Heq.
  rewrite deferred_filename_ex_length in Heq by done. lia.
Qed.

Lemma deferred_filename_ex_commit_ne_rollback (s : string) :
  deferred_filename_ex s MSICA_CLEANUP_ACTION_COMMIT
    ≠ deferred_filename_ex s MSICA_CLEANUP_ACTION_ROLLBACK.
Proof.
  rewrite !deferred_filename_ex_unfold. intros Heq.
  apply String.app_inj in Heq. discriminate Heq.
Qed.

(** X6: the two cleanup sequence filenames derived from a sequence
    filename differ from each other and from the sequence filename, and
    are three characters longer; with the terminator they fit the buffer of
    [MAX_PATH + 1 + 2 + 1] characters whenever the sequence filename has at
    most [MAX_PATH] characters. *)
Theorem X6_cleanup_filenames_distinct_and_bounded (szSeqFilename : string) :
  let cm := deferred_filename_ex szSeqFilename MSICA_CLEANUP_ACTION_COMMIT in
  let rb := deferred_filename_ex szSeqFilename MSICA_CLEANUP_ACTION_ROLLBACK in
  cm ≠ rb ∧ cm ≠ szSeqFilename ∧ rb ≠ szSeqFilename ∧
  String.length cm = (String.length szSeqFilename + 3)%nat ∧
  String.length rb = (String.length szSeqFilename + 3)%nat ∧
  ((String.length szSeqFilename ≤ MAX_PATH)%nat →
   (String.length cm + 1 ≤ MAX_PATH + 1 + 2 + 1)%nat ∧
   (String.length rb + 1 ≤ MAX_PATH + 1 + 2 + 1)%nat).
Proof.
  cbv zeta.
  pose proof (deferred_filename_ex_length szSeqFilename 0 ltac:(cbv; lia)) as H0.
  pose proof (deferred_filename_ex_length szSeqFilename 1 ltac:(cbv; lia)) as H1.
  split; [apply deferred_filename_ex_commit_ne_rollback|].
  split; [apply deferred_filename_ex_ne_base; cbv; lia|].
  split; [apply deferred_filename_ex_ne_base; cbv; lia|].
  unfold MSICA_CLEANUP_ACTION_COMMIT, MSICA_CLEANUP_ACTION_ROLLBACK.
  split; [done|]. split; [done|]. intros Hle. lia.
Qed.

(** ** Setting up a sequence filename *)

Lemma setup_sequence_filename_success h szProperty szOld w szFilename w' :
  openvpnmsica_setup_sequence_filename h szProperty szOld w = (ERROR_SUCCESS, szFilename, w') →
  szFilename ≠ "" ∧
  w' = set_property (szProperty +:+ "Rollback") (setup_filename_ex szFilename 1)
         (set_property (szProperty +:+ "Commit") (setup_filename_ex szFilename 0)
            (set_property szProperty szFilename
               (set_files (insert szFilename (file_seq [])) w))).
Proof.
  unfold openvpnmsica_setup_sequence_filename.
  destruct (h_GetTempPath h) as [e1 szTempPath].
  destruct (Z.eqb_spec e1 ERROR_SUCCESS) as [->|Hne1]; cbn [negb]; [|congruence].
  pose proof (GetTempFileName_spec h szTempPath szProperty w) as Htemp.
  destruct (GetTempFileName h szTempPath szProperty w) as [[e2 szTemp] w1].
  cbn in Htemp. destruct Htemp as [[Hne2 ->]|(-> & Hname & ->)].
  { apply Z.eqb_neq in Hne2. rewrite Hne2. cbn [negb]. apply Z.eqb_neq in Hne2. congruence. }
  success_branch.
  destruct (Z.eqb_spec (h_MsiSetProperty h szProperty) ERROR_SUCCESS) as [_|Hne3];
    cbn [negb]; [|congruence].
  unfold cleanup_action_indices. cbn [seq MSICA_CLEANUP_ACTION_COUNT setup_cleanup_properties].
  change (szName (cleanup_action 0)) with "Commit".
  change (szName (cleanup_action 1)) with "Rollback".
  destruct (Z.eqb_spec (h_MsiSetProperty h (szProperty +:+ "Commit")) ERROR_SUCCESS)
    as [_|Hne4]; cbn [negb]; [|congruence].
  destruct (Z.eqb_spec (h_MsiSetProperty h (szProperty +:+ "Rollback")) ERROR_SUCCESS)
    as [_|Hne5]; cbn [negb]; [|congruence].
  by intros [= <- <-].
Qed.

(** X7: when [openvpnmsica_setup_sequence_filename] succeeds, the file it
    names exists and is empty, the property of the action holds its name,
    and the Commit and Rollback properties of the action hold the names the
    deferred action will derive from that name for its cleanup sequence
    files; no other file is touched. *)
Theorem X7_setup_sequence_filename_publishes_names
    (h : host) (szProperty szOld : string) (w : world) (szFilename : string) (w' : world) :
  openvpnmsica_setup_sequence_filename h szProperty szOld w = (ERROR_SUCCESS, szFilename, w') →
  szFilename ≠ "" ∧
  files w' = <[szFilename := file_seq []]> (files w) ∧
  properties w' !! szProperty = Some szFilename ∧
  properties w' !! (szProperty +:+ "Commit")
    = Some (deferred_filename_ex szFilename MSICA_CLEANUP_ACTION_COMMIT) ∧
  properties w' !! (szProperty +:+ "Rollback")
    = Some (deferred_filename_ex szFilename MSICA_CLEANUP_ACTION_ROLLBACK).
Proof.
  intros Hsetup.
  destruct (setup_sequence_filename_properties _ _ _ _ _ _ Hsetup) as (Hp & Hc & Hr).
  apply setup_sequence_filename_success in Hsetup as [Hname ->].
  by repeat split.
Qed.

Lemma X7_setup_sequence_filename_witness :
  let result :=
    openvpnmsica_setup_sequence_filename example_planning_host "InstallTAPInterfaces" ""
      empty_world in
  result.1.2 ≠ "" ∧
  files result.2 = <[result.1.2 := file_seq []]> (files empty_world) ∧
  properties result.2 !! "InstallTAPInterfaces" = Some result.1.2 ∧
  properties result.2 !! ("InstallTAPInterfaces" +:+ "Commit")
    = Some (deferred_filename_ex result.1.2 MSICA_CLEANUP_ACTION_COMMIT) ∧
  properties result.2 !! ("InstallTAPInterfaces" +:+ "Rollback")
    = Some (deferred_filename_ex result.1.2 MSICA_CLEANUP_ACTION_ROLLBACK).
Proof.
  apply (X7_setup_sequence_filename_publishes_names example_planning_host
           "InstallTAPInterfaces" "" empty_world).
  vm_compute. reflexivity.
Defined.

(** X8: whatever its outcome, [openvpnmsica_setup_sequence_filename]
    changes no file, or creates exactly the file whose non-empty name it
    leaves in the buffer, so that the caller can delete what was created;
    when getting the temporary path fails, the buffer and the world are as
    before. *)
Theorem X8_setup_sequence_filename_touches_one_file
    (h : host) (szProperty szOld : string) (w : world) :
  let result := openvpnmsica_setup_sequence_filename h szProperty szOld w in
  (files result.2 = files w ∨
   (result.1.2 ≠ "" ∧ files result.2 = <[result.1.2 := file_seq []]> (files w))) ∧
  ((h_GetTempPath h).1 ≠ ERROR_SUCCESS → result = ((h_GetTempPath h).1, szOld, w)).
Proof.
  intros result. split; [apply setup_sequence_filename_files|].
  intros Hfail. subst result. unfold openvpnmsica_setup_sequence_filename.
  destruct (h_GetTempPath h) as [e1 szTempPath]. cbn [fst] in *.
  apply Z.eqb_neq in Hfail. by rewrite Hfail.
Qed.

(** ** Planning: progress, early exits and the written files *)

Lemma seq_ticks_add_tail (seq : msica_op_seq) (op : msica_op) :
  seq_ticks (msica_op_seq_add_tail seq op) = seq_ticks seq + op_ticks op.
Proof.
  unfold msica_op_seq_add_tail, seq_ticks.
  induction seq as [|op' seq IH]; cbn; [lia|]. rewrite IH. lia.
Qed.

Lemma evaluate_record_ticks h hRecord exec_seq w :
  let result := evaluate_record h hRecord exec_seq w in
  progress_total result.2 - progress_total w
    = seq_ticks result.1.2.1 + seq_ticks result.1.2.2
      - (seq_ticks exec_seq.1 + seq_ticks exec_seq.2).
Proof.
  unfold evaluate_record, add_interface_ticks.
  destruct (rec_Component hRecord) as [u1 szComponent].
  destruct (negb (u1 =? _)); [cbn; lia|].
  destruct (h_MsiGetComponentState h szComponent) as [[u2 iInstalled] iAction].
  destruct (negb (u2 =? _)); [cbn; lia|].
  destruct (rec_DisplayName hRecord) as [u3 szDisplayName].
  destruct (negb (u3 =? _)); [cbn; lia|].
  destruct (iAction >? _); [|cbn; lia].
  destruct (iAction >=? _).
  - destruct (rec_Condition hRecord) as [u4 szValue].
    destruct (negb (u4 =? _)); [cbn; lia|].
    destruct (MsiEvaluateCondition h szValue); try (cbn; lia).
    all: destruct (_ =? IDCANCEL); cbn [fst snd progress_total add_progress];
      rewrite seq_ticks_add_tail; cbn [op_ticks msica_op_create_string]; lia.
  - destruct (_ =? IDCANCEL); cbn [fst snd progress_total add_progress];
      rewrite seq_ticks_add_tail; cbn [op_ticks msica_op_create_string]; lia.
Qed.

Lemma evaluate_records_ticks h view :
  ∀ exec_seq w,
    let result := evaluate_records h view exec_seq w in
    progress_total result.2 - progress_total w
      = seq_ticks result.1.2.1 + seq_ticks result.1.2.2
        - (seq_ticks exec_seq.1 + seq_ticks exec_seq.2).
Proof.
  induction view as [|[uiFetch hRecord] view IH]; intros exec_seq w; [cbn; lia|].
  cbn. destruct (uiFetch =? ERROR_NO_MORE_ITEMS); [cbn; lia|].
  destruct (negb (uiFetch =? _)); [cbn; lia|].
  pose proof (evaluate_record_ticks h hRecord exec_seq w) as Hrec.
  destruct (evaluate_record h hRecord exec_seq w) as [[uiResult exec_seq1] w1].
  cbn in Hrec. destruct (negb (uiResult =? _)); [cbn; lia|].
  specialize (IH exec_seq1 w1). cbn in IH. lia.
Qed.

(** X9: whatever the outcome of the fetch loop, the ticks it has added to
    the progress total are the ticks carried by the operations it has put
    in the install and uninstall sequences. *)
Theorem X9_progress_total_matches_planned_ticks
    (h : host) (view : list (UINT * msi_record)) (w : world) :
  let result := evaluate_records h view (exec_seq_init h) w in
  progress_total result.2
    = progress_total w + seq_ticks result.1.2.1 + seq_ticks result.1.2.2.
Proof.
  intros result. pose proof (evaluate_records_ticks h view (exec_seq_init h) w) as Hticks.
  fold result in Hticks. cbn in Hticks. lia.
Qed.

Lemma EvaluateTAPInterfaces_early_exit h w :
  fetch_loop_reached h = false →
  (EvaluateTAPInterfaces h w).2 = w ∧
  ((EvaluateTAPInterfaces h w).1 = ERROR_SUCCESS ↔
   h_MsiGetActiveDatabase h = true ∧
   h_MsiDatabaseIsTablePersistent h ≠ MSICONDITION_TRUE ∧
   h_MsiDatabaseIsTablePersistent h ≠ MSICONDITION_FALSE).
Proof.
  unfold fetch_loop_reached, EvaluateTAPInterfaces. intros Hearly.
  destruct (h_MsiGetActiveDatabase h); cbn [negb andb fst snd] in *;
    [|split; [done|split; [done|by intros [? _]]]].
  destruct (h_MsiDatabaseIsTablePersistent h); cbn [andb] in Hearly;
    try (split; [done|by split]).
  all: destruct (Z.eqb_spec (h_MsiDatabaseOpenView h) ERROR_SUCCESS) as [_|Hv];
    cbn [negb andb fst snd] in *; [|split; [done|split; [done|by intros (_ & ? & ?)]]].
  all: destruct (Z.eqb_spec (h_MsiViewExecute h) ERROR_SUCCESS) as [_|He];
    cbn [negb andb fst snd] in *; [|split; [done|split; [done|by intros (_ & ? & ?)]]].
  all: rewrite Hearly; cbn [negb fst snd].
  all: split; [done|split; [done|by intros (_ & ? & ?)]].
Qed.

(** X10: unless [EvaluateTAPInterfaces] gets through the whole table
    without error, it writes no file, sets no property and executes
    nothing, and it returns [ERROR_SUCCESS] only when the database is there
    and has no TAPInterface table. *)
Theorem X10_nothing_written_before_the_table_is_evaluated (h : host) (w : world) :
  fetch_loop_reached h = false ∨
  (evaluate_records h (h_view h) (exec_seq_init h) w).1.1 ≠ ERROR_SUCCESS →
  let result := EvaluateTAPInterfaces h w in
  files result.2 = files w ∧ properties result.2 = properties w ∧
  trace result.2 = trace w ∧
  (result.1 = ERROR_SUCCESS ↔
   h_MsiGetActiveDatabase h = true ∧
   h_MsiDatabaseIsTablePersistent h ≠ MSICONDITION_TRUE ∧
   h_MsiDatabaseIsTablePersistent h ≠ MSICONDITION_FALSE).
Proof.
  intros Hcase result. subst result.
  destruct (fetch_loop_reached h) eqn:Hreach.
  - destruct Hcase as [|Hfail]; [done|].
    rewrite (EvaluateTAPInterfaces_fetch_loop _ _ Hreach).
    pose proof (evaluate_records_frame h (h_view h) (exec_seq_init h) w) as Hframe.
    destruct (evaluate_records h (h_view h) (exec_seq_init h) w)
      as [[uiResult exec_seq] w1].
    cbn [fst snd] in *. apply Z.eqb_neq in Hfail. rewrite Hfail. cbn [negb fst snd].
    apply Z.eqb_neq in Hfail. destruct Hframe as (? & ? & ?).
    repeat split; try done. intros (_ & Ht & Hf).
    unfold fetch_loop_reached in Hreach.
    destruct (h_MsiGetActiveDatabase h); [|done].
    by destruct (h_MsiDatabaseIsTablePersistent h).
  - destruct (EvaluateTAPInterfaces_early_exit h w Hreach) as [-> Hiff].
    split; [done|]. split; [done|]. split; [done|]. exact Hiff.
Qed.

Lemma X10_no_table_witness :
  let result := EvaluateTAPInterfaces no_table_host empty_world in
  files result.2 = files empty_world ∧ properties result.2 = properties empty_world ∧
  trace result.2 = trace empty_world ∧
  (result.1 = ERROR_SUCCESS ↔
   h_MsiGetActiveDatabase no_table_host = true ∧
   h_MsiDatabaseIsTablePersistent no_table_host ≠ MSICONDITION_TRUE ∧
   h_MsiDatabaseIsTablePersistent no_table_host ≠ MSICONDITION_FALSE).
Proof.
  apply (X10_nothing_written_before_the_table_is_evaluated no_table_host empty_world).
  left. reflexivity.
Defined.

Lemma write_sequence_files_step h i rest exec_seq names w names' w' :
  write_sequence_files h (i :: rest) exec_seq names w = (ERROR_SUCCESS, names', w') →
  ∃ f wi,
    openvpnmsica_setup_sequence_filename h (nth i szActionNames "") (nth i names "") w
      = (ERROR_SUCCESS, f, wi) ∧
    write_sequence_files h rest exec_seq (<[i := f]> names)
      (set_files (insert f (file_seq (exec_seq_at exec_seq i)))
         (set_files (insert f (file_seq [])) wi))
      = (ERROR_SUCCESS, names', w').
Proof.
  cbn [write_sequence_files].
  destruct (openvpnmsica_setup_sequence_filename _ _ _ _) as [[u1 f] wi].
  destruct (Z.eqb_spec u1 ERROR_SUCCESS) as [->|Hu1]; cbn [negb]; [|congruence].
  unfold CreateFile_CREATE_ALWAYS.
  destruct (Z.eqb_spec (h_create_error h f) ERROR_SUCCESS) as [_|Hc]; [|congruence].
  cbn [msica_op_seq_save].
  destruct (h_save_error h f =? ERROR_SUCCESS) eqn:Hsave; cbn [negb]; rewrite ?Hsave.
  - success_branch. intros Hrest. by exists f, wi.
  - cbn [negb]. intros [= Hs _ _]. apply Z.eqb_neq in Hsave. congruence.
Qed.

(** X11: when [EvaluateTAPInterfaces] gets through the table and returns
    [ERROR_SUCCESS], the properties InstallTAPInterfaces and
    UninstallTAPInterfaces name the two sequence files, their Commit and
    Rollback properties name the cleanup sequence files the deferred action
    will derive, the file of the uninstall sequence holds that sequence and,
    the two names being different, the file of the install sequence holds
    the install sequence; no other file has changed. *)
Theorem X11_successful_plan_writes_both_sequences (h : host) (w w1 : world) :
  fetch_loop_reached h = true →
  EvaluateTAPInterfaces h w = (ERROR_SUCCESS, w1) →
  ∃ exec_seq w0 f0 f1,
    evaluate_records h (h_view h) (exec_seq_init h) w = (ERROR_SUCCESS, exec_seq, w0) ∧
    properties w1 !! "InstallTAPInterfaces" = Some f0 ∧
    properties w1 !! "InstallTAPInterfacesCommit"
      = Some (deferred_filename_ex f0 MSICA_CLEANUP_ACTION_COMMIT) ∧
    properties w1 !! "InstallTAPInterfacesRollback"
      = Some (deferred_filename_ex f0 MSICA_CLEANUP_ACTION_ROLLBACK) ∧
    properties w1 !! "UninstallTAPInterfaces" = Some f1 ∧
    properties w1 !! "UninstallTAPInterfacesCommit"
      = Some (deferred_filename_ex f1 MSICA_CLEANUP_ACTION_COMMIT) ∧
    properties w1 !! "UninstallTAPInterfacesRollback"
      = Some (deferred_filename_ex f1 MSICA_CLEANUP_ACTION_ROLLBACK) ∧
    files w1 !! f1 = Some (file_seq exec_seq.2) ∧
    (f0 ≠ f1 → files w1 !! f0 = Some (file_seq exec_seq.1)) ∧
    (∀ p, p ≠ f0 → p ≠ f1 → files w1 !! p = files w !! p).
Proof.
  intros Hreach. rewrite (EvaluateTAPInterfaces_fetch_loop _ _ Hreach).
  pose proof (evaluate_records_frame h (h_view h) (exec_seq_init h) w) as Hframe.
  destruct (evaluate_records h (h_view h) (exec_seq_init h) w) as [[uiResult exec_seq] w0].
  cbn [snd] in Hframe. destruct Hframe as (Hfiles & _ & _).
  destruct (Z.eqb_spec uiResult ERROR_SUCCESS) as [->|Hne]; cbn [negb]; [|congruence].
  unfold save_exec_seq.
  destruct (write_sequence_files _ _ _ _ _) as [[uiWrite names] w2] eqn:Hwrite.
  destruct (Z.eqb_spec uiWrite ERROR_SUCCESS) as [->|Hne]; cbn [negb]; [|congruence].
  intros [= <-].
  cbn [List.length szActionNames seq] in Hwrite.
  apply write_sequence_files_step in Hwrite as (f0 & wa & Hsetup0 & Hwrite).
  apply write_sequence_files_step in Hwrite as (f1 & wb & Hsetup1 & Hwrite).
  cbn [write_sequence_files] in Hwrite. injection Hwrite as _ <-.
  apply setup_sequence_filename_success in Hsetup0 as [_ ->].
  apply setup_sequence_filename_success in Hsetup1 as [_ ->].
  cbn [nth szActionNames exec_seq_at].
  change ("InstallTAPInterfaces" +:+ "Commit") with "InstallTAPInterfacesCommit".
  change ("InstallTAPInterfaces" +:+ "Rollback") with "InstallTAPInterfacesRollback".
  change ("UninstallTAPInterfaces" +:+ "Commit") with "UninstallTAPInterfacesCommit".
  change ("UninstallTAPInterfaces" +:+ "Rollback") with "UninstallTAPInterfacesRollback".
  exists exec_seq, w0, f0, f1. split; [done|].
  cbn [properties files set_property set_files].
  repeat split.
  - by rewrite !lookup_insert_ne, lookup_insert_eq by done.
  - by rewrite !lookup_insert_ne, lookup_insert_eq by done.
  - by rewrite !lookup_insert_ne, lookup_insert_eq by done.
  - by rewrite !lookup_insert_ne, lookup_insert_eq by done.
  - by rewrite !lookup_insert_ne, lookup_insert_eq by done.
  - by rewrite lookup_insert_eq.
  - by rewrite lookup_insert_eq.
  - intros Hne. by rewrite !lookup_insert_ne, lookup_insert_eq by done.
  - intros p Hp0 Hp1. by rewrite !lookup_insert_ne, Hfiles by done.
Qed.

Lemma X11_successful_plan_witness :
  ∃ exec_seq w0 f0 f1,
    evaluate_records example_planning_host (h_view example_planning_host)
      (exec_seq_init example_planning_host) empty_world = (ERROR_SUCCESS, exec_seq, w0) ∧
    properties (EvaluateTAPInterfaces example_planning_host empty_world).2
      !! "InstallTAPInterfaces" = Some f0 ∧
    properties (EvaluateTAPInterfaces example_planning_host empty_world).2
      !! "InstallTAPInterfacesCommit"
      = Some (deferred_filename_ex f0 MSICA_CLEANUP_ACTION_COMMIT) ∧
    properties (EvaluateTAPInterfaces example_planning_host empty_world).2
      !! "InstallTAPInterfacesRollback"
      = Some (deferred_filename_ex f0 MSICA_CLEANUP_ACTION_ROLLBACK) ∧
    properties (EvaluateTAPInterfaces example_planning_host empty_world).2
      !! "UninstallTAPInterfaces" = Some f1 ∧
    properties (EvaluateTAPInterfaces example_planning_host empty_world).2
      !! "UninstallTAPInterfacesCommit"
      = Some (deferred_filename_ex f1 MSICA_CLEANUP_ACTION_COMMIT) ∧
    properties (EvaluateTAPInterfaces example_planning_host empty_world).2
      !! "UninstallTAPInterfacesRollback"
      = Some (deferred_filename_ex f1 MSICA_CLEANUP_ACTION_ROLLBACK) ∧
    files (EvaluateTAPInterfaces example_planning_host empty_world).2 !! f1
      = Some (file_seq exec_seq.2) ∧
    (f0 ≠ f1 →
     files (EvaluateTAPInterfaces example_planning_host empty_world).2 !! f0
       = Some (file_seq exec_seq.1)) ∧
    (∀ p, p ≠ f0 → p ≠ f1 →
          files (EvaluateTAPInterfaces example_planning_host empty_world).2 !! p
            = files empty_world !! p).
Proof.
  apply (X11_successful_plan_writes_both_sequences example_planning_host empty_world
           (EvaluateTAPInterfaces example_planning_host empty_world).2);
    vm_compute; reflexivity.
Defined.

(** ** The deferred action and the cleanup passes after it *)

Section ExecutorFiles.

Context (h : host).

Lemma msica_op_exec_files op session w p :
  files (msica_op_exec h op session w).2 !! p = None ∨
  files (msica_op_exec h op session w).2 !! p = files w !! p.
Proof.
  unfold msica_op_exec.
  destruct (op_type op), (op_value op); try by right.
  - destruct (h_tap_create h s =? ERROR_SUCCESS); by right.
  - cbn. destruct (decide (s = p)) as [->|Hne].
    + left. apply lookup_delete_eq.
    + right. by apply lookup_delete_ne.
Qed.

(** The executor creates no file and changes none: a path holds what it
    held, or nothing. *)
Lemma msica_op_seq_process_from_files seq :
  ∀ dwFirst session w p,
    files (msica_op_seq_process_from h seq dwFirst session w).2 !! p = None ∨
    files (msica_op_seq_process_from h seq dwFirst session w).2 !! p = files w !! p.
Proof.
  induction seq as [|op rest IH]; intros dwFirst session w p; cbn; [by right|].
  pose proof (msica_op_exec_files op session w p) as Hexec.
  destruct (msica_op_exec h op session w) as [[dwResult session'] w'].
  cbn [snd] in Hexec.
  assert (Hrest : ∀ dw,
    files (msica_op_seq_process_from h rest dw session'
             (log_event (EvOp op dwResult) w')).2 !! p = None ∨
    files (msica_op_seq_process_from h rest dw session'
             (log_event (EvOp op dwResult) w')).2 !! p = files w !! p).
  { intros dw. destruct (IH dw session' (log_event (EvOp op dwResult) w') p) as [?|Heq];
      [by left|]. rewrite Heq. exact Hexec. }
  destruct (dwResult =? ERROR_SUCCESS); [apply Hrest|].
  destruct (continue_on_error session'); [apply Hrest|exact Hexec].
Qed.

Lemma msica_op_seq_process_from_app seq1 seq2 :
  ∀ dwFirst session w,
    continue_on_error session = true →
    msica_op_seq_process_from h (seq1 ++ seq2) dwFirst session w =
      let '(dwFirst', session', w') := msica_op_seq_process_from h seq1 dwFirst session w in
      msica_op_seq_process_from h seq2 dwFirst' session' w'.
Proof.
  induction seq1 as [|op rest IH]; intros dwFirst session w Hc; [done|]. cbn.
  pose proof (msica_op_exec_flags h op session w) as Hf.
  destruct (msica_op_exec h op session w) as [[dwResult session'] w'].
  cbn in Hf. rewrite Hc in Hf. rewrite Hf.
  destruct (dwResult =? ERROR_SUCCESS); by apply IH.
Qed.

(** A sequence that ends with the deletion of a file, processed to its
    end, leaves no file of that name. *)
Lemma msica_op_seq_process_deletes_last seq path rollback w :
  files (msica_op_seq_process h
           (seq ++ [ msica_op_create_string msica_op_file_delete 0 path ])
           (openvpnmsica_session_init true rollback) w).2 !! path = None.
Proof.
  unfold msica_op_seq_process. rewrite msica_op_seq_process_from_app by done.
  destruct (msica_op_seq_process_from h seq _ _ w) as [[dwFirst session] w'].
  cbn. apply lookup_delete_eq.
Qed.

End ExecutorFiles.

Lemma save_cleanup_sequences_success h szSeqFilename session dwResultEx w :
  cleanup_persistence_fails h szSeqFilename = false →
  save_cleanup_sequences h szSeqFilename session cleanup_action_indices dwResultEx w =
    (ERROR_SUCCESS,
     set_files
       (insert (deferred_filename_ex szSeqFilename 1) (file_seq (seq_cleanup session 1)))
       (set_files (insert (deferred_filename_ex szSeqFilename 1) (file_seq []))
          (set_files
             (insert (deferred_filename_ex szSeqFilename 0) (file_seq (seq_cleanup session 0)))
             (set_files (insert (deferred_filename_ex szSeqFilename 0) (file_seq [])) w)))).
Proof.
  unfold cleanup_persistence_fails, cleanup_action_indices.
  cbn [seq MSICA_CLEANUP_ACTION_COUNT existsb]. rewrite !orb_false_iff, !negb_false_iff.
  intros ((Hc0 & Hs0) & (Hc1 & Hs1) & _).
  cbn [save_cleanup_sequences]. unfold CreateFile_CREATE_ALWAYS.
  rewrite Hc0. cbn [msica_op_seq_save]. rewrite Hs0. rewrite Z.eqb_refl.
  rewrite Hc1. cbn [msica_op_seq_save]. rewrite Hs1. by rewrite Z.eqb_refl.
Qed.

(** What a deferred invocation leaves when the cleanup sequences were
    saved. *)
Lemma ProcessDeferredAction_saved hInstall w szSeqFilename seq :
  is_cleanup hInstall = false →
  h_CustomActionData hInstall = (ERROR_SUCCESS, szSeqFilename) →
  CreateFile_OPEN_EXISTING hInstall szSeqFilename w = file_handle szSeqFilename →
  msica_op_seq_load (file_handle szSeqFilename) w = (ERROR_SUCCESS, seq) →
  cleanup_persistence_fails hInstall szSeqFilename = false →
  let executor :=
    msica_op_seq_process hInstall seq (openvpnmsica_session_init false false) w in
  let session := schedule_file_deletes szSeqFilename executor.1.2 in
  (ProcessDeferredAction hInstall w).1 = executor.1.1 ∧
  trace (ProcessDeferredAction hInstall w).2 = trace executor.2 ∧
  files (ProcessDeferredAction hInstall w).2 =
    delete szSeqFilename
      (<[deferred_filename_ex szSeqFilename 1 := file_seq (seq_cleanup session 1)]>
         (<[deferred_filename_ex szSeqFilename 0 := file_seq (seq_cleanup session 0)]>
            (files executor.2))).
Proof.
  intros Hmode Hdata Hopen Hload Hsaved executor session. subst session executor.
  rewrite (ProcessDeferredAction_loaded _ _ _ _ Hdata Hopen Hload), Hmode.
  destruct (msica_op_seq_process _ _ _ _) as [[uiResult session] w1].
  cbv [negb]. cbv beta iota zeta.
  rewrite (save_cleanup_sequences_success _ _ _ _ _ Hsaved).
  unfold cleanup_session. rewrite Z.eqb_refl.
  cbn [fst snd trace files DeleteFile set_files].
  split; [done|]. split; [done|].
  by rewrite !insert_insert_eq.
Qed.

Lemma seq_cleanup_scheduled (szSeqFilename : string) (session : msica_session) :
  seq_cleanup (schedule_file_deletes szSeqFilename session) MSICA_CLEANUP_ACTION_COMMIT
    = seq_cleanup_commit session ++ [ file_delete_op szSeqFilename MSICA_CLEANUP_ACTION_ROLLBACK ] ∧
  seq_cleanup (schedule_file_deletes szSeqFilename session) MSICA_CLEANUP_ACTION_ROLLBACK
    = seq_cleanup_rollback session ++ [ file_delete_op szSeqFilename MSICA_CLEANUP_ACTION_COMMIT ].
Proof. by split. Qed.

(** X12: a deferred invocation that loaded its sequence and could save
    both cleanup sequences returns the result of the execution, whether it
    failed or not, and leaves the commit file with the commit cleanup
    sequence followed by the deletion of the rollback file, the rollback
    file with the rollback cleanup sequence followed by the deletion of the
    commit file, and no sequence file of its own; it executes nothing
    besides the loaded sequence and touches no other file. *)
Theorem X12_deferred_action_saves_cleanup_sequences
    (hInstall : host) (w : world) (szSeqFilename : string) (seq : msica_op_seq) :
  is_cleanup hInstall = false →
  h_CustomActionData hInstall = (ERROR_SUCCESS, szSeqFilename) →
  CreateFile_OPEN_EXISTING hInstall szSeqFilename w = file_handle szSeqFilename →
  msica_op_seq_load (file_handle szSeqFilename) w = (ERROR_SUCCESS, seq) →
  cleanup_persistence_fails hInstall szSeqFilename = false →
  let '(uiResult, session, w1) :=
    msica_op_seq_process hInstall seq (openvpnmsica_session_init false false) w in
  let cm := deferred_filename_ex szSeqFilename MSICA_CLEANUP_ACTION_COMMIT in
  let rb := deferred_filename_ex szSeqFilename MSICA_CLEANUP_ACTION_ROLLBACK in
  let '(uiReturned, w') := ProcessDeferredAction hInstall w in
  uiReturned = uiResult ∧
  trace w' = trace w1 ∧
  files w' !! cm
    = Some (file_seq (seq_cleanup_commit session
                      ++ [ file_delete_op szSeqFilename MSICA_CLEANUP_ACTION_ROLLBACK ])) ∧
  files w' !! rb
    = Some (file_seq (seq_cleanup_rollback session
                      ++ [ file_delete_op szSeqFilename MSICA_CLEANUP_ACTION_COMMIT ])) ∧
  files w' !! szSeqFilename = None ∧
  (∀ p, p ≠ cm → p ≠ rb → p ≠ szSeqFilename → files w' !! p = files w1 !! p).
Proof.
  intros Hmode Hdata Hopen Hload Hsaved.
  pose proof (ProcessDeferredAction_saved _ _ _ _ Hmode Hdata Hopen Hload Hsaved) as Hpda.
  cbv zeta in Hpda.
  destruct (msica_op_seq_process _ _ _ _) as [[uiResult session] w1].
  destruct (ProcessDeferredAction hInstall w) as [uiReturned w'].
  cbn [fst snd] in Hpda. destruct Hpda as (Hr & Ht & Hf).
  destruct (seq_cleanup_scheduled szSeqFilename session) as [Hcm Hrb].
  pose proof (deferred_filename_ex_commit_ne_rollback szSeqFilename) as Hne.
  pose proof (deferred_filename_ex_ne_base szSeqFilename 0 ltac:(cbv; lia)) as Hne0.
  pose proof (deferred_filename_ex_ne_base szSeqFilename 1 ltac:(cbv; lia)) as Hne1.
  cbv zeta. rewrite Hf.
  unfold MSICA_CLEANUP_ACTION_COMMIT, MSICA_CLEANUP_ACTION_ROLLBACK in *.
  rewrite Hcm, Hrb. repeat split; try done.
  - rewrite lookup_delete_ne by done. rewrite lookup_insert_ne by done.
    apply lookup_insert_eq.
  - rewrite lookup_delete_ne by done. apply lookup_insert_eq.
  - apply lookup_delete_eq.
  - intros p Hp0 Hp1 Hp. rewrite lookup_delete_ne by done.
    by rewrite !lookup_insert_ne by done.
Qed.

Lemma X12_deferred_action_witness :
  let '(uiResult, session, w1) :=
    msica_op_seq_process (deferred_host (λ _, ERROR_SUCCESS)) install_seq
      (openvpnmsica_session_init false false) planned_world in
  let cm := deferred_filename_ex "C:\Temp\Ins1.tmp" MSICA_CLEANUP_ACTION_COMMIT in
  let rb := deferred_filename_ex "C:\Temp\Ins1.tmp" MSICA_CLEANUP_ACTION_ROLLBACK in
  let '(uiReturned, w') :=
    ProcessDeferredAction (deferred_host (λ _, ERROR_SUCCESS)) planned_world in
  uiReturned = uiResult ∧
  trace w' = trace w1 ∧
  files w' !! cm
    = Some (file_seq (seq_cleanup_commit session
                      ++ [ file_delete_op "C:\Temp\Ins1.tmp" MSICA_CLEANUP_ACTION_ROLLBACK ])) ∧
  files w' !! rb
    = Some (file_seq (seq_cleanup_rollback session
                      ++ [ file_delete_op "C:\Temp\Ins1.tmp" MSICA_CLEANUP_ACTION_COMMIT ])) ∧
  files w' !! "C:\Temp\Ins1.tmp" = None ∧
  (∀ p, p ≠ cm → p ≠ rb → p ≠ "C:\Temp\Ins1.tmp" → files w' !! p = files w1 !! p).
Proof.
  apply (X12_deferred_action_saves_cleanup_sequences (deferred_host (λ _, ERROR_SUCCESS))
           planned_world "C:\Temp\Ins1.tmp" install_seq);
    vm_compute; reflexivity.
Defined.

(** X13: a commit or rollback invocation that returns an error has done
    nothing: no operation was executed and no file was deleted.  (It
    returns an error when the sequence filename cannot be read, when the
    file is there and cannot be opened, or when it does not load.) *)
Theorem X13_cleanup_pass_error_means_nothing_done (hInstall : host) (w : world) :
  is_cleanup hInstall = true →
  (ProcessDeferredAction hInstall w).1 ≠ ERROR_SUCCESS →
  (ProcessDeferredAction hInstall w).2 = w.
Proof.
  intros Hmode. unfold ProcessDeferredAction. rewrite Hmode.
  destruct (h_CustomActionData hInstall) as [uiData szSeqFilename].
  destruct (negb (uiData =? ERROR_SUCCESS)); [done|].
  destruct (CreateFile_OPEN_EXISTING hInstall szSeqFilename w) as [last_error|szOpened].
  { by destruct ((last_error =? ERROR_FILE_NOT_FOUND) && true). }
  destruct (msica_op_seq_load (file_handle szOpened) w) as [uiLoad seq].
  destruct (negb (uiLoad =? ERROR_SUCCESS)); [done|].
  destruct (msica_op_seq_process _ _ _ _) as [[uiResult session] w1].
  cbn. done.
Qed.

Lemma X13_cleanup_pass_error_witness :
  (ProcessDeferredAction commit_host damaged_world).2 = damaged_world.
Proof.
  apply (X13_cleanup_pass_error_means_nothing_done commit_host damaged_world).
  - reflexivity.
  - vm_compute. discriminate.
Defined.

Lemma open_existing_file h szFilename w data :
  files w !! szFilename = Some data →
  h_open_error h szFilename = ERROR_SUCCESS →
  CreateFile_OPEN_EXISTING h szFilename w = file_handle szFilename.
Proof.
  intros Hfile Hopen. unfold CreateFile_OPEN_EXISTING. by rewrite Hfile, Hopen.
Qed.

(** X14: after a deferred invocation that saved both cleanup sequences,
    the commit or rollback invocation on the cleanup sequence file of its
    kind executes every operation of that sequence, returns
    [ERROR_SUCCESS], and leaves none of the three files of the token: not
    the sequence file, not the commit file, not the rollback file. *)
Theorem X14_cleanup_pass_removes_all_sequence_files
    (hDeferred hCleanup : host) (w : world) (szSeqFilename : string) (seq : msica_op_seq)
    (i : nat) :
  is_cleanup hDeferred = false →
  h_CustomActionData hDeferred = (ERROR_SUCCESS, szSeqFilename) →
  CreateFile_OPEN_EXISTING hDeferred szSeqFilename w = file_handle szSeqFilename →
  msica_op_seq_load (file_handle szSeqFilename) w = (ERROR_SUCCESS, seq) →
  cleanup_persistence_fails hDeferred szSeqFilename = false →
  (i < MSICA_CLEANUP_ACTION_COUNT)%nat →
  is_cleanup hCleanup = true →
  h_CustomActionData hCleanup = (ERROR_SUCCESS, deferred_filename_ex szSeqFilename i) →
  h_open_error hCleanup (deferred_filename_ex szSeqFilename i) = ERROR_SUCCESS →
  let executor :=
    msica_op_seq_process hDeferred seq (openvpnmsica_session_init false false) w in
  let cleanup := seq_cleanup (schedule_file_deletes szSeqFilename executor.1.2) i in
  let w1 := (ProcessDeferredAction hDeferred w).2 in
  let '(uiReturned, w2) := ProcessDeferredAction hCleanup w1 in
  uiReturned = ERROR_SUCCESS ∧
  trace w2 = trace w1 ++ executed hCleanup cleanup ∧
  files w2 !! szSeqFilename = None ∧
  files w2 !! deferred_filename_ex szSeqFilename MSICA_CLEANUP_ACTION_COMMIT = None ∧
  files w2 !! deferred_filename_ex szSeqFilename MSICA_CLEANUP_ACTION_ROLLBACK = None.
Proof.
  intros Hmode Hdata Hopen Hload Hsaved Hi Hmode2 Hdata2 Hopen2 executor cleanup w1.
  pose proof (ProcessDeferredAction_saved _ _ _ _ Hmode Hdata Hopen Hload Hsaved) as Hpda.
  cbv zeta in Hpda. fold executor in Hpda. fold w1 in Hpda.
  destruct Hpda as (_ & _ & Hfiles).
  pose proof (deferred_filename_ex_commit_ne_rollback szSeqFilename) as Hne.
  pose proof (deferred_filename_ex_ne_base szSeqFilename 0 ltac:(cbv; lia)) as Hne0.
  pose proof (deferred_filename_ex_ne_base szSeqFilename 1 ltac:(cbv; lia)) as Hne1.
  unfold MSICA_CLEANUP_ACTION_COMMIT, MSICA_CLEANUP_ACTION_ROLLBACK in *.
  assert (Hbase : files w1 !! szSeqFilename = None).
  { rewrite Hfiles. apply lookup_delete_eq. }
  assert (Hfile : files w1 !! deferred_filename_ex szSeqFilename i = Some (file_seq cleanup)).
  { rewrite Hfiles. destruct i as [|[|i]]; [| |cbv in Hi; lia].
    - rewrite lookup_delete_ne by done. rewrite lookup_insert_ne by done.
      apply lookup_insert_eq.
    - rewrite lookup_delete_ne by done. apply lookup_insert_eq. }
  assert (Hload2 : msica_op_seq_load (file_handle (deferred_filename_ex szSeqFilename i)) w1
                   = (ERROR_SUCCESS, cleanup)).
  { cbn. by rewrite Hfile. }
  rewrite (ProcessDeferredAction_loaded _ _ _ _ Hdata2
             (open_existing_file _ _ _ _ Hfile Hopen2) Hload2), Hmode2.
  pose proof (msica_op_seq_process_continue hCleanup cleanup false w1) as Htrace.
  pose proof (msica_op_seq_process_from_files hCleanup cleanup ERROR_SUCCESS
                (openvpnmsica_session_init true false) w1) as Hmono.
  assert (Hother : files (msica_op_seq_process hCleanup cleanup
                            (openvpnmsica_session_init true false) w1).2
                     !! deferred_filename_ex szSeqFilename (1 - i) = None).
  { subst cleanup. destruct (seq_cleanup_scheduled szSeqFilename executor.1.2) as [Hcm Hrb].
    unfold MSICA_CLEANUP_ACTION_COMMIT, MSICA_CLEANUP_ACTION_ROLLBACK in *.
    destruct i as [|[|i]]; [| |cbv in Hi; lia].
    - rewrite Hcm. apply msica_op_seq_process_deletes_last.
    - rewrite Hrb. apply msica_op_seq_process_deletes_last. }
  fold (msica_op_seq_process hCleanup cleanup (openvpnmsica_session_init true false) w1)
    in Hmono.
  destruct (msica_op_seq_process hCleanup cleanup _ w1) as [[uiResult session2] w2].
  cbv [negb]. cbv beta iota zeta. cbn [snd] in *.
  split; [done|]. split; [done|]. cbn [files DeleteFile set_files].
  split.
  - apply lookup_delete_None. right. destruct (Hmono szSeqFilename) as [?|Heq]; [done|].
    by rewrite Heq.
  - destruct i as [|[|i]]; [| |cbv in Hi; lia]; cbn [Nat.sub] in Hother.
    + split; [apply lookup_delete_eq|]. apply lookup_delete_None. by right.
    + split; [|apply lookup_delete_eq]. apply lookup_delete_None. by right.
Qed.

Lemma X14_rollback_pass_witness :
  let executor :=
    msica_op_seq_process (deferred_host (λ _, ERROR_SUCCESS)) install_seq
      (openvpnmsica_session_init false false) planned_world in
  let cleanup := seq_cleanup (schedule_file_deletes "C:\Temp\Ins1.tmp" executor.1.2) 1 in
  let w1 := (ProcessDeferredAction (deferred_host (λ _, ERROR_SUCCESS)) planned_world).2 in
  let '(uiReturned, w2) :=
    ProcessDeferredAction (cleanup_host false true "C:\Temp\Ins1-rb.tmp") w1 in
  uiReturned = ERROR_SUCCESS ∧
  trace w2 = trace w1 ++ executed (cleanup_host false true "C:\Temp\Ins1-rb.tmp") cleanup ∧
  files w2 !! "C:\Temp\Ins1.tmp" = None ∧
  files w2 !! deferred_filename_ex "C:\Temp\Ins1.tmp" MSICA_CLEANUP_ACTION_COMMIT = None ∧
  files w2 !! deferred_filename_ex "C:\Temp\Ins1.tmp" MSICA_CLEANUP_ACTION_ROLLBACK = None.
Proof.
  apply (X14_cleanup_pass_removes_all_sequence_files (deferred_host (λ _, ERROR_SUCCESS))
           (cleanup_host false true "C:\Temp\Ins1-rb.tmp") planned_world
           "C:\Temp\Ins1.tmp" install_seq 1);
    first [ vm_compute; reflexivity | vm_compute; lia ].
Defined.

(** The rollback pass of the example deletes the interface the deferred
    action created, then the commit file. *)
Example rollback_pass_trace :
  let w1 := (ProcessDeferredAction (deferred_host (λ _, ERROR_SUCCESS)) planned_world).2 in
  trace (ProcessDeferredAction (cleanup_host false true "C:\Temp\Ins1-rb.tmp") w1).2
  = trace w1 ++
    [ EvOp (msica_op_create_string msica_op_tap_interface_delete_by_name
              MSICA_INTERFACE_TICK_SIZE "A") ERROR_SUCCESS;
      EvOp (msica_op_create_string msica_op_file_delete 0 "C:\Temp\Ins1-cm.tmp")
        ERROR_SUCCESS ].
Proof. vm_compute. reflexivity. Qed.

(** What a deferred invocation leaves of the cleanup files when they
    could not be saved. *)
Lemma ProcessDeferredAction_not_saved hInstall w szSeqFilename loaded i :
  is_cleanup hInstall = false →
  h_CustomActionData hInstall = (ERROR_SUCCESS, szSeqFilename) →
  CreateFile_OPEN_EXISTING hInstall szSeqFilename w = file_handle szSeqFilename →
  msica_op_seq_load (file_handle szSeqFilename) w = (ERROR_SUCCESS, loaded) →
  cleanup_persistence_fails hInstall szSeqFilename = true →
  (i < MSICA_CLEANUP_ACTION_COUNT)%nat →
  files (ProcessDeferredAction hInstall w).2 !! deferred_filename_ex szSeqFilename i = None.
Proof.
  intros Hmode Hdata Hopen Hload Hfails Hi.
  rewrite (ProcessDeferredAction_loaded _ _ _ _ Hdata Hopen Hload), Hmode.
  destruct (msica_op_seq_process _ _ _ _) as [[uiResult session] w1].
  cbv [negb]. cbv beta iota zeta.
  pose proof (save_cleanup_sequences_fails hInstall szSeqFilename
                (schedule_file_deletes szSeqFilename session) ERROR_SUCCESS w1 Hfails) as Hne.
  destruct (save_cleanup_sequences _ _ _ _ _ _) as [dwResultEx w2].
  cbn [fst] in Hne. unfold cleanup_session.
  destruct (Z.eqb_spec dwResultEx ERROR_SUCCESS) as [|_]; [done|].
  destruct (msica_op_seq_process _ _ _ w2) as [[dwCleanup session'] w3].
  cbn [snd files DeleteFile set_files delete_cleanup_files cleanup_action_indices
       MSICA_CLEANUP_ACTION_COUNT seq foldl].
  destruct i as [|[|i]]; [| |cbv in Hi; lia].
  - apply lookup_delete_None. right. apply lookup_delete_None. right. apply lookup_delete_eq.
  - apply lookup_delete_None. right. apply lookup_delete_eq.
Qed.

(** X15: after a deferred invocation that could not save its cleanup
    sequences and cleaned up at once, a later commit or rollback invocation
    on either cleanup file finds no file, executes nothing and returns
    [ERROR_SUCCESS]. *)
Theorem X15_cleanup_pass_after_immediate_cleanup
    (hDeferred hCleanup : host) (w : world) (szSeqFilename : string) (seq : msica_op_seq)
    (i : nat) :
  is_cleanup hDeferred = false →
  h_CustomActionData hDeferred = (ERROR_SUCCESS, szSeqFilename) →
  CreateFile_OPEN_EXISTING hDeferred szSeqFilename w = file_handle szSeqFilename →
  msica_op_seq_load (file_handle szSeqFilename) w = (ERROR_SUCCESS, seq) →
  cleanup_persistence_fails hDeferred szSeqFilename = true →
  (i < MSICA_CLEANUP_ACTION_COUNT)%nat →
  is_cleanup hCleanup = true →
  h_CustomActionData hCleanup = (ERROR_SUCCESS, deferred_filename_ex szSeqFilename i) →
  let w1 := (ProcessDeferredAction hDeferred w).2 in
  ProcessDeferredAction hCleanup w1 = (ERROR_SUCCESS, w1).
Proof.
  intros Hmode Hdata Hopen Hload Hfails Hi Hmode2 Hdata2 w1.
  pose proof (ProcessDeferredAction_not_saved _ _ _ _ i Hmode Hdata Hopen Hload Hfails Hi)
    as Hgone.
  fold w1 in Hgone. unfold ProcessDeferredAction at 1, CreateFile_OPEN_EXISTING.
  rewrite Hdata2. cbv beta iota zeta. success_branch. by rewrite Hgone, Hmode2.
Qed.

Lemma X15_cleanup_pass_after_immediate_cleanup_witness :
  let w1 := (ProcessDeferredAction (deferred_host rb_create_error) planned_world).2 in
  ProcessDeferredAction (cleanup_host true false "C:\Temp\Ins1-cm.tmp") w1
    = (ERROR_SUCCESS, w1).
Proof.
  apply (X15_cleanup_pass_after_immediate_cleanup (deferred_host rb_create_error)
           (cleanup_host true false "C:\Temp\Ins1-cm.tmp") planned_world
           "C:\Temp\Ins1.tmp" install_seq 0);
    first [ vm_compute; reflexivity | vm_compute; lia ].
Defined.

(** X16: a row that makes the planner fail with anything but the user's
    cancellation adds no operation to either sequence and no tick to the
    progress total: the sequences and the world are as before the row. *)
Theorem X16_failing_row_adds_nothing
    (h : host) (hRecord : msi_record) (exec_seq : msica_op_seq * msica_op_seq) (w : world) :
  let result := evaluate_record h hRecord exec_seq w in
  result.1.1 ≠ ERROR_SUCCESS →
  result.1.1 ≠ ERROR_INSTALL_USEREXIT →
  result.1.2 = exec_seq ∧ result.2 = w.
Proof.
  unfold evaluate_record, add_interface_ticks.
  destruct (rec_Component hRecord) as [u1 szComponent].
  destruct (negb (u1 =? _)); [done|].
  destruct (h_MsiGetComponentState h szComponent) as [[u2 iInstalled] iAction].
  destruct (negb (u2 =? _)); [done|].
  destruct (rec_DisplayName hRecord) as [u3 szDisplayName].
  destruct (negb (u3 =? _)); [done|].
  destruct (iAction >? _); [|done].
  destruct (iAction >=? _).
  - destruct (rec_Condition hRecord) as [u4 szValue].
    destruct (negb (u4 =? _)); [done|].
    destruct (MsiEvaluateCondition h szValue); try done.
    all: by destruct (_ =? IDCANCEL).
  - by destruct (_ =? IDCANCEL).
Qed.

Lemma X16_failing_row_witness :
  let result :=
    evaluate_record bad_condition_host bad_condition_record
      (exec_seq_init bad_condition_host) empty_world in
  result.1.2 = exec_seq_init bad_condition_host ∧ result.2 = empty_world.
Proof.
  apply (X16_failing_row_adds_nothing bad_condition_host bad_condition_record
           (exec_seq_init bad_condition_host) empty_world);
    vm_compute; discriminate.
Defined.
